(** * gif-maker: the conversion pipeline of [src/App.tsx]

    A shallow embedding of the two async functions of the [App] component,
    [loadFFmpeg] and [generateGif], together with the JavaScript primitives
    they use ([Math.max], [Math.min], [Number.prototype.toFixed], the
    Number-to-String conversion of template literals), and the properties of
    the pipeline proved on that embedding. *)

From Stdlib Require Import ZArith QArith Qabs Qround List String Ascii Lia Bool.
From Stdlib Require Import Floats.SpecFloat.
From Stdlib Require Import Numbers.DecimalString Numbers.DecimalN Numbers.DecimalPos.
Import ListNotations.

#[local] Open Scope string_scope.
#[local] Open Scope Z_scope.

(* ===================================================================== *)
(** ** JavaScript numbers

    A JS number is an IEEE-754 binary64 value: [spec_float] with a 53-bit
    mantissa.  Comparisons are made on the exact value [m * 2^e], so they
    are right for every representation. *)
(* ===================================================================== *)

Module JS.

Definition number : Type := spec_float.

Definition prec : Z := 53.
Definition emax : Z := 1024.

(** An integer literal. *)
Definition of_Z (z : Z) : number := binary_normalize prec emax z 0 false.

(** A decimal literal [n / 10^k] ([0.2] is [of_decimal 2 1]): the nearest
    binary64 value. *)
Definition of_decimal (n : Z) (k : Z) : number :=
  SFdiv prec emax (of_Z n) (of_Z (10 ^ k)).

Definition NaN : number := S754_nan.

Definition is_nan (x : number) : bool :=
  match x with S754_nan => true | _ => false end.

Definition is_finite (x : number) : bool :=
  match x with S754_zero _ | S754_finite _ _ _ => true | _ => false end.

(** Signed mantissa and exponent of a finite number. *)
Definition mant (x : number) : Z :=
  match x with
  | S754_finite s m _ => if s then Zneg m else Zpos m
  | _ => 0
  end.

Definition expo (x : number) : Z :=
  match x with S754_finite _ _ e => e | _ => 0 end.

Definition pow2Q (e : Z) : Q :=
  if 0 <=? e then inject_Z (2 ^ e) else / inject_Z (2 ^ (- e)).

Definition pow10Q (e : Z) : Q :=
  if 0 <=? e then inject_Z (10 ^ e) else / inject_Z (10 ^ (- e)).

(** The exact value of a finite number. *)
Definition value (x : number) : Q := (inject_Z (mant x) * pow2Q (expo x))%Q.

Definition dyadic_compare (m1 e1 m2 e2 : Z) : comparison :=
  let e := Z.min e1 e2 in
  (m1 * 2 ^ (e1 - e) ?= m2 * 2 ^ (e2 - e)).

(** IEEE comparison: [None] when an operand is NaN; [-0] equals [+0]. *)
Definition compare (x y : number) : option comparison :=
  match x, y with
  | S754_nan, _ | _, S754_nan => None
  | S754_infinity s1, S754_infinity s2 =>
      Some (match s1, s2 with
            | true, false => Lt
            | false, true => Gt
            | _, _ => Eq
            end)
  | S754_infinity s, _ => Some (if s then Lt else Gt)
  | _, S754_infinity s => Some (if s then Gt else Lt)
  | _, _ => Some (dyadic_compare (mant x) (expo x) (mant y) (expo y))
  end.

(** [x < y], [x <= y] and [x === y] on numbers. *)
Definition ltb (x y : number) : bool :=
  match compare x y with Some Lt => true | _ => false end.

Definition leb (x y : number) : bool :=
  match compare x y with Some Lt | Some Eq => true | _ => false end.

Definition strict_eq (x y : number) : bool :=
  match compare x y with Some Eq => true | _ => false end.

(** A finite number below zero. *)
Definition is_negative (x : number) : bool :=
  match x with S754_finite true _ _ => true | _ => false end.

Definition is_pos_zero (x : number) : bool :=
  match x with S754_zero false => true | _ => false end.

Definition is_neg_zero (x : number) : bool :=
  match x with S754_zero true => true | _ => false end.

(** [Math.max(a, b)]: NaN if either is NaN, [+0] is larger than [-0]. *)
Definition Math_max (a b : number) : number :=
  if is_nan a || is_nan b then NaN
  else if is_pos_zero b && is_neg_zero a then b
  else if ltb a b then b else a.

(** [Math.min(a, b)]: NaN if either is NaN, [-0] is smaller than [+0]. *)
Definition Math_min (a b : number) : number :=
  if is_nan a || is_nan b then NaN
  else if is_neg_zero b && is_pos_zero a then b
  else if ltb b a then b else a.

(* --------------------------------------------------------------------- *)
(** *** Decimal digits *)

(** The decimal digits of a natural number, ["0"] for zero. *)
Definition dec (z : Z) : string :=
  NilZero.string_of_uint (N.to_uint (Z.to_N z)).

Definition is_digit (c : ascii) : bool :=
  let n := nat_of_ascii c in (48 <=? n)%nat && (n <=? 57)%nat.

Fixpoint all_digits (s : string) : bool :=
  match s with
  | EmptyString => true
  | String c s' => is_digit c && all_digits s'
  end.

Fixpoint zeros (n : nat) : string :=
  match n with
  | O => ""
  | S n' => String "0" (zeros n')
  end.

(** The first [n] characters of [s], and the rest. *)
Fixpoint take (n : nat) (s : string) : string :=
  match n, s with
  | S n', String c s' => String c (take n' s')
  | _, _ => ""
  end.

Fixpoint drop (n : nat) (s : string) : string :=
  match n, s with
  | S n', String _ s' => drop n' s'
  | _, _ => s
  end.

(* --------------------------------------------------------------------- *)
(** *** [Number.prototype.toFixed] *)

Definition qltb (a b : Q) : bool :=
  match (a ?= b)%Q with Lt => true | _ => false end.

(** The integer [n] for which [n / 10^f - v] is closest to zero, the larger
    one when two are as close. *)
Definition round_half_up (f : nat) (v : Q) : Z :=
  Qfloor (v * inject_Z (10 ^ Z.of_nat f) + (1 # 2))%Q.

(** The digits of [n] with a point before the last [f] of them, padded with
    leading zeros to [f + 1] digits. *)
Definition fixed_digits (f : nat) (n : Z) : string :=
  let m := dec n in
  let m := if (length m <=? f)%nat then zeros (f + 1 - length m) ++ m else m in
  let k := length m in
  match f with
  | O => m
  | _ => take (k - f) m ++ "." ++ drop (k - f) m
  end.

(* --------------------------------------------------------------------- *)
(** *** Number to String

    The shortest decimal [s * 10^(n-k)], [s] of [k] digits, that reads back
    as the number; the closest to it when several have [k] digits. *)

(** The values that round to [m * 2^e] lie between the midpoints to its two
    neighbours; the midpoints themselves round to it when [m] is even. *)
Definition round_interval (m : positive) (e : Z) : Q * Q :=
  let below :=
    if (Zpos m =? 2 ^ 52) && (-1074 <? e) then 4 * Zpos m - 1
    else 4 * Zpos m - 2 in
  ((inject_Z below * pow2Q (e - 2))%Q,
   (inject_Z (4 * Zpos m + 2) * pow2Q (e - 2))%Q).

Definition reads_back (m : positive) (e : Z) (v : Q) : bool :=
  let (lo, hi) := round_interval m e in
  if Z.even (Zpos m) then Qle_bool lo v && Qle_bool v hi
  else qltb lo v && qltb v hi.

(** The least [n' >= n] with [v < 10^n']. *)
Fixpoint first_above (fuel : nat) (v : Q) (n : Z) : Z :=
  match fuel with
  | O => n
  | S fuel' => if qltb v (pow10Q n) then n else first_above fuel' v (n + 1)
  end.

(** The [n] with [10^(n-1) <= m * 2^e < 10^n]. *)
Definition decimal_exponent (m : positive) (e : Z) : Z :=
  let bits := Z.log2 (Zpos m) + 1 + e in
  first_above 8 (inject_Z (Zpos m) * pow2Q e)%Q (bits * 30103 / 100000 - 2).

Definition decimal_value (k : Z) (c : Z * Z) : Q :=
  (inject_Z (fst c) * pow10Q (snd c - k))%Q.

Definition candidates (v : Q) (k n : Z) : list (Z * Z) :=
  let t := Qfloor (v / pow10Q (n - k))%Q in [(t, n); (t + 1, n)].

Definition valid_candidate (m : positive) (e : Z) (k : Z) (c : Z * Z) : bool :=
  (10 ^ (k - 1) <=? fst c) && (fst c <? 10 ^ k)
  && reads_back m e (decimal_value k c).

Definition closer (v : Q) (k : Z) (c1 c2 : Z * Z) : bool :=
  match (Qabs (decimal_value k c1 - v) ?= Qabs (decimal_value k c2 - v))%Q with
  | Lt => true
  | Eq => Z.even (fst c1) && negb (Z.even (fst c2))
  | Gt => false
  end.

Fixpoint closest (v : Q) (k : Z) (cs : list (Z * Z)) : option (Z * Z) :=
  match cs with
  | [] => None
  | c :: cs' =>
      match closest v k cs' with
      | Some c' => Some (if closer v k c' c then c' else c)
      | None => Some c
      end
  end.

(** [(s, n, k)] for [m * 2^e], trying [k = 1, 2, ...]. *)
Fixpoint shortest (fuel : nat) (m : positive) (e : Z) (k : Z) : Z * Z * Z :=
  match fuel with
  | O => (0, 0, k)
  | S fuel' =>
      let v := (inject_Z (Zpos m) * pow2Q e)%Q in
      let n := decimal_exponent m e in
      let cs := filter (valid_candidate m e k)
                       (candidates v k n ++ candidates v k (n + 1)) in
      match closest v k cs with
      | Some (s, n') => (s, n', k)
      | None => shortest fuel' m e (k + 1)
      end
  end.

Definition format_digits (s n k : Z) : string :=
  let d := dec s in
  if (k <=? n) && (n <=? 21) then d ++ zeros (Z.to_nat (n - k))
  else if (0 <? n) && (n <=? 21) then
    take (Z.to_nat n) d ++ "." ++ drop (Z.to_nat n) d
  else if (-6 <? n) && (n <=? 0) then "0." ++ zeros (Z.to_nat (- n)) ++ d
  else
    let x := n - 1 in
    let sign := if x <? 0 then "-" else "+" in
    if k =? 1 then d ++ "e" ++ sign ++ dec (Z.abs x)
    else take 1 d ++ "." ++ drop 1 d ++ "e" ++ sign ++ dec (Z.abs x).

(** [String(x)], also the conversion made by a template literal; the digits
    are those of a binary64 value in its canonical form, which [of_Z],
    [of_decimal] and the arithmetic of [SpecFloat] give. *)
Definition Number_toString (x : number) : string :=
  match x with
  | S754_nan => "NaN"
  | S754_zero _ => "0"
  | S754_infinity s => if s then "-Infinity" else "Infinity"
  | S754_finite s m e =>
      let '(d, n, k) := shortest 17 m e 1 in
      (if s then "-" else "") ++ format_digits d n k
  end.

(** [x.toFixed(f)]: ["NaN"] and the infinities as they are; from [10^21] on
    the Number-to-String form; below it the fixed-point digits. *)
Definition Number_toFixed (f : nat) (x : number) : string :=
  match x with
  | S754_nan => "NaN"
  | S754_infinity s => if s then "-Infinity" else "Infinity"
  | S754_zero _ => fixed_digits f 0
  | S754_finite s m e =>
      (if s then "-" else "")
      ++ (if ltb (S754_finite false m e) (of_Z (10 ^ 21))
          then fixed_digits f (round_half_up f (value (S754_finite false m e)))
          else Number_toString (S754_finite false m e))
  end.

(** A string of the form [d...d.dd]: digits, a point, two digits. *)
Definition two_decimals (s : string) : bool :=
  let n := length s in
  (4 <=? n)%nat && all_digits (take (n - 3) s)
  && String.eqb (take 1 (drop (n - 3) s)) "."
  && all_digits (drop (n - 2) s).

End JS.

(* ===================================================================== *)
(** ** The data of [App.tsx] *)
(* ===================================================================== *)

Definition bytes : Type := list Byte.byte.

(** [Settings['dither']]. *)
Inductive Dither : Type :=
| none | bayer | floyd_steinberg | sierra2 | sierra2_4a.

(** The string a [Dither] value is at run time. *)
Definition dither_string (d : Dither) : string :=
  match d with
  | none => "none"
  | bayer => "bayer"
  | floyd_steinberg => "floyd_steinberg"
  | sierra2 => "sierra2"
  | sierra2_4a => "sierra2_4a"
  end.

Module Settings.

Record t : Type := { fps : JS.number; width : JS.number;
                     colors : JS.number; dither : Dither }.

End Settings.

Inductive PresetKey : Type := ultra | balanced | compact.

Definition PRESETS (k : PresetKey) : Settings.t :=
  match k with
  | ultra => {| Settings.fps := JS.of_Z 20; Settings.width := JS.of_Z 1280;
                Settings.colors := JS.of_Z 256; Settings.dither := sierra2_4a |}
  | balanced => {| Settings.fps := JS.of_Z 15; Settings.width := JS.of_Z 960;
                   Settings.colors := JS.of_Z 256; Settings.dither := sierra2_4a |}
  | compact => {| Settings.fps := JS.of_Z 12; Settings.width := JS.of_Z 720;
                  Settings.colors := JS.of_Z 128; Settings.dither := bayer |}
  end.

Definition CORE_BASE : string := "https://unpkg.com/@ffmpeg/core@0.12.6/dist/esm".

(** A [File]: its name and its content. *)
Record File : Type := { name : string; content : bytes }.

(** A [Blob]: [new Blob([bytes], { type })]. *)
Record Blob : Type := { blob_bytes : bytes; blob_type : string }.

Definition blob_size (b : Blob) : Z := Z.of_nat (List.length (blob_bytes b)).

(** What [ffmpeg.readFile] resolves to: [Uint8Array | string]. *)
Inductive FileData : Type :=
| Uint8Array (b : bytes)
| Text (s : string).

(** A thrown value. *)
Definition Err : Type := string.

(** The state variables the form controls write: one field per [useState]
    whose setter is called from the markup only. *)
Record Inputs : Type := {
  file : option File;
  preset : PresetKey;
  fps : JS.number;
  width : JS.number;
  colors : JS.number;
  dither : Dither;
  startSec : JS.number;
  durationSec : JS.number;
  loopCount : JS.number;
  speed : JS.number;
  isDark : bool
}.

(** The state of the [App] component: the form values and the state
    variables that [loadFFmpeg] and [generateGif] write. *)
Record State : Type := {
  inputs : Inputs;
  loaded : bool;
  generating : bool;
  progress : JS.number;
  status : string;
  gifUrl : option string
}.

(** The state of the first render. *)
Definition initial_inputs : Inputs :=
  let p := PRESETS balanced in
  {| file := None; preset := balanced;
     fps := Settings.fps p; width := Settings.width p;
     colors := Settings.colors p; dither := Settings.dither p;
     startSec := JS.of_Z 0; durationSec := JS.of_Z 5; loopCount := JS.of_Z 0;
     speed := JS.of_Z 1; isDark := false |}.

Definition initial_state : State :=
  {| inputs := initial_inputs; loaded := false; generating := false;
     progress := JS.of_Z 0;
     status := "Load ffmpeg and drop a video to begin.";
     gifUrl := None |}.

Definition with_inputs (i : Inputs) (s : State) : State :=
  {| inputs := i; loaded := loaded s; generating := generating s;
     progress := progress s; status := status s; gifUrl := gifUrl s |}.

Definition with_loaded (b : bool) (s : State) : State :=
  {| inputs := inputs s; loaded := b; generating := generating s;
     progress := progress s; status := status s; gifUrl := gifUrl s |}.

Definition with_generating (b : bool) (s : State) : State :=
  {| inputs := inputs s; loaded := loaded s; generating := b;
     progress := progress s; status := status s; gifUrl := gifUrl s |}.

Definition with_progress (p : JS.number) (s : State) : State :=
  {| inputs := inputs s; loaded := loaded s; generating := generating s;
     progress := p; status := status s; gifUrl := gifUrl s |}.

Definition with_status (t : string) (s : State) : State :=
  {| inputs := inputs s; loaded := loaded s; generating := generating s;
     progress := progress s; status := t; gifUrl := gifUrl s |}.

Definition with_gifUrl (u : option string) (s : State) : State :=
  {| inputs := inputs s; loaded := loaded s; generating := generating s;
     progress := progress s; status := status s; gifUrl := u |}.

(** [onChange] of the file input. *)
Definition setFile (f : option File) (i : Inputs) : Inputs :=
  {| file := f; preset := preset i; fps := fps i; width := width i;
     colors := colors i; dither := dither i; startSec := startSec i;
     durationSec := durationSec i; loopCount := loopCount i;
     speed := speed i; isDark := isDark i |}.

(** [onChange] of the colours, start and duration inputs. *)
Definition setColors (x : JS.number) (i : Inputs) : Inputs :=
  {| file := file i; preset := preset i; fps := fps i; width := width i;
     colors := x; dither := dither i; startSec := startSec i;
     durationSec := durationSec i; loopCount := loopCount i;
     speed := speed i; isDark := isDark i |}.

Definition setStartSec (x : JS.number) (i : Inputs) : Inputs :=
  {| file := file i; preset := preset i; fps := fps i; width := width i;
     colors := colors i; dither := dither i; startSec := x;
     durationSec := durationSec i; loopCount := loopCount i;
     speed := speed i; isDark := isDark i |}.

Definition setDurationSec (x : JS.number) (i : Inputs) : Inputs :=
  {| file := file i; preset := preset i; fps := fps i; width := width i;
     colors := colors i; dither := dither i; startSec := startSec i;
     durationSec := x; loopCount := loopCount i;
     speed := speed i; isDark := isDark i |}.

Definition setSpeed (x : JS.number) (i : Inputs) : Inputs :=
  {| file := file i; preset := preset i; fps := fps i; width := width i;
     colors := colors i; dither := dither i; startSec := startSec i;
     durationSec := durationSec i; loopCount := loopCount i;
     speed := x; isDark := isDark i |}.


(* ===================================================================== *)
(** ** The engine arguments built in [generateGif] *)
(* ===================================================================== *)

(** [const toFixed = (value: number) => value.toFixed(2)]. *)
Definition toFixed (value : JS.number) : string := JS.Number_toFixed 2 value.

(** [trimArgs], [speedFilter] and [scaleAndRate], from the form values [i]
    of the render that [generateGif] closes over. *)
Definition trim_start (i : Inputs) : JS.number :=
  JS.Math_max (JS.of_Z 0) (startSec i).

Definition trim_duration (i : Inputs) : JS.number :=
  JS.Math_max (JS.of_decimal 2 1) (durationSec i).

Definition trimArgs (i : Inputs) : list string :=
  ["-ss"; toFixed (trim_start i); "-t"; toFixed (trim_duration i)].

Definition speedFilter (i : Inputs) : string :=
  if JS.strict_eq (speed i) (JS.of_Z 1) then ""
  else ",setpts=PTS/" ++ JS.Number_toString (speed i).

Definition scaleAndRate (i : Inputs) : string :=
  "fps=" ++ JS.Number_toString (fps i) ++ ",scale="
  ++ JS.Number_toString (width i) ++ ":-1:flags=lanczos" ++ speedFilter i.

(** [Math.max(2, Math.min(256, colors))]. *)
Definition max_colors (i : Inputs) : JS.number :=
  JS.Math_max (JS.of_Z 2) (JS.Math_min (JS.of_Z 256) (colors i)).

(** The filter of the palette pass (the argument after [-vf]). *)
Definition paletteFilter (i : Inputs) : string :=
  scaleAndRate i ++ ",palettegen=max_colors="
  ++ JS.Number_toString (max_colors i) ++ ":stats_mode=full".

(** The filter graph of the render pass (the argument after [-lavfi]). *)
Definition renderFilter (i : Inputs) : string :=
  scaleAndRate i ++ "[x];[x][1:v]paletteuse=dither="
  ++ dither_string (dither i) ++ ":diff_mode=rectangle".

(** The array given to the first [ffmpeg.exec]. *)
Definition paletteArgs (i : Inputs) (inputName paletteName : string)
  : list string :=
  (["-y"; "-i"; inputName] ++ trimArgs i
   ++ ["-frames:v"; "1"; "-update"; "1"; "-vf"; paletteFilter i; paletteName])%list.

(** The array given to the second [ffmpeg.exec]. *)
Definition renderArgs (i : Inputs) (inputName paletteName outputName : string)
  : list string :=
  (["-y"; "-i"; inputName] ++ trimArgs i
   ++ ["-i"; paletteName; "-lavfi"; renderFilter i;
       "-loop"; JS.Number_toString (loopCount i); outputName])%list.

(** The three names of a job, from the three readings of [Date.now()]. *)
Definition inputName_of (t : JS.number) (f : File) : string :=
  "input-" ++ JS.Number_toString t ++ "-" ++ name f.

Definition paletteName_of (t : JS.number) : string :=
  "palette-" ++ JS.Number_toString t ++ ".png".

Definition outputName_of (t : JS.number) : string :=
  "output-" ++ JS.Number_toString t ++ ".gif".

(* ===================================================================== *)
(** ** Async functions as programs

    An async function is a tree of its effects.  [Await] is a call whose
    promise is awaited: it resolves to a value or rejects with an error, and
    other handlers of the page can run before it settles.  The other nodes
    are synchronous. *)
(* ===================================================================== *)

(** The asynchronous calls: [@ffmpeg/util] and the [FFmpeg] instance. *)
Inductive Ext : Type :=
| fetchFile (f : File)
| toBlobURL (url mimeType : string)
| ffmpeg_load (coreURL wasmURL : string)
| ffmpeg_writeFile (path : string) (data : bytes)
| ffmpeg_exec (args : list string)
| ffmpeg_readFile (path : string)
| ffmpeg_deleteFile (path : string).

(** What each of them resolves to. *)
Definition Ext_ret (c : Ext) : Type :=
  match c with
  | fetchFile _ => bytes
  | toBlobURL _ _ => string
  | ffmpeg_load _ _ => bool
  | ffmpeg_writeFile _ _ => bool
  | ffmpeg_exec _ => JS.number
  | ffmpeg_readFile _ => FileData
  | ffmpeg_deleteFile _ => bool
  end.

Inductive Fn : Type := fn_generateGif | fn_loadFFmpeg.

(** The synchronous effects that return nothing; [invoke] marks the entry
    into a function of the component. *)
Inductive Action : Type :=
| setStatus (s : string)
| setProgress (p : JS.number)
| setGenerating (b : bool)
| setLoaded (b : bool)
| setGifUrl (u : string)
| ffmpeg_on_progress
| URL_revokeObjectURL (u : string)
| console_error (e : Err)
| invoke (f : Fn).

Inductive Prog (R : Type) : Type :=
| Ret (r : R)
| Throw (e : Err)
| Act (a : Action) (k : Prog R)
| Date_now (k : JS.number -> Prog R)
| URL_createObjectURL (b : Blob) (k : string -> Prog R)
| Await (c : Ext) (k : Err + Ext_ret c -> Prog R).

Arguments Ret {R} r.
Arguments Throw {R} e.
Arguments Act {R} a k.
Arguments Date_now {R} k.
Arguments URL_createObjectURL {R} b k.
Arguments Await {R} c k.

Fixpoint bind {A B : Type} (p : Prog A) (f : A -> Prog B) : Prog B :=
  match p with
  | Ret r => f r
  | Throw e => Throw e
  | Act a k => Act a (bind k f)
  | Date_now k => Date_now (fun t => bind (k t) f)
  | URL_createObjectURL b k => URL_createObjectURL b (fun u => bind (k u) f)
  | Await c k => Await c (fun r => bind (k r) f)
  end.

Declare Scope prog_scope.
Delimit Scope prog_scope with prog.
Notation "x <- p ;; q" := (bind p (fun x => q))
  (at level 61, p at next level, right associativity) : prog_scope.
Notation "p ;; q" := (bind p (fun _ => q))
  (at level 61, right associativity) : prog_scope.
#[local] Open Scope prog_scope.

Definition act (a : Action) : Prog unit := Act a (Ret tt).

Definition now : Prog JS.number := Date_now (fun t => Ret t).

Definition createObjectURL (b : Blob) : Prog string :=
  URL_createObjectURL b (fun u => Ret u).

(** [await c]: the value the promise resolves to, or its rejection thrown. *)
Definition await (c : Ext) : Prog (Ext_ret c) :=
  Await c (fun r => match r with inl e => Throw e | inr x => Ret x end).

(** [try { p } catch (error) { h error }]. *)
Fixpoint try_catch {R : Type} (p : Prog R) (h : Err -> Prog R) : Prog R :=
  match p with
  | Ret r => Ret r
  | Throw e => h e
  | Act a k => Act a (try_catch k h)
  | Date_now k => Date_now (fun t => try_catch (k t) h)
  | URL_createObjectURL b k =>
      URL_createObjectURL b (fun u => try_catch (k u) h)
  | Await c k => Await c (fun r => try_catch (k r) h)
  end.

(** [try { p } finally { f }]: [f] runs on both exits of [p]. *)
Fixpoint finally {R : Type} (p : Prog R) (f : Prog unit) : Prog R :=
  match p with
  | Ret r => f ;; Ret r
  | Throw e => f ;; Throw e
  | Act a k => Act a (finally k f)
  | Date_now k => Date_now (fun t => finally (k t) f)
  | URL_createObjectURL b k =>
      URL_createObjectURL b (fun u => finally (k u) f)
  | Await c k => Await c (fun r => finally (k r) f)
  end.

(** [new TextEncoder().encode(s)]; a string is held as its UTF-8 bytes. *)
Definition TextEncoder_encode (s : string) : bytes := list_byte_of_string s.

(** [data instanceof Uint8Array ? new Uint8Array(data)
     : new TextEncoder().encode(data)]. *)
Definition to_bytes (data : FileData) : bytes :=
  match data with
  | Uint8Array b => b
  | Text s => TextEncoder_encode s
  end.

(** [if (gifUrl)]: neither [null] nor the empty string. *)
Definition truthy (u : option string) : option string :=
  match u with
  | Some s => if String.eqb s "" then None else Some s
  | None => None
  end.

(* ===================================================================== *)
(** ** [loadFFmpeg] and [generateGif]

    Both are closures of a render: [r] holds the values of the state
    variables at that render. *)
(* ===================================================================== *)

Definition loadFFmpeg (r : State) : Prog unit :=
  act (invoke fn_loadFFmpeg) ;;
  if loaded r then Ret tt
  else
    act (setStatus "Loading ffmpeg core (first run can take ~30MB)...") ;;
    act ffmpeg_on_progress ;;
    coreURL <- await (toBlobURL (CORE_BASE ++ "/ffmpeg-core.js") "text/javascript") ;;
    wasmURL <- await (toBlobURL (CORE_BASE ++ "/ffmpeg-core.wasm") "application/wasm") ;;
    await (ffmpeg_load coreURL wasmURL) ;;
    act (setLoaded true) ;;
    act (setStatus "ffmpeg loaded. Ready to generate.").

(** The handler given to [ffmpeg.on('progress', ...)]; [p || 0] is [0] for
    [NaN] and for a zero. *)
Definition on_progress (p : JS.number) : Prog unit :=
  let p0 := match p with
            | S754_nan | S754_zero _ => JS.of_Z 0
            | _ => p
            end in
  act (setProgress (JS.Math_max (JS.of_Z 0) (JS.Math_min (JS.of_Z 1) p0))).

(** The status of a finished conversion. *)
Definition done_status (b : Blob) : string :=
  "Done. GIF size "
  ++ JS.Number_toFixed 2
       (SFdiv JS.prec JS.emax (JS.of_Z (blob_size b)) (JS.of_Z (1024 * 1024)))
  ++ " MB".

Definition failed_status : string :=
  "Conversion failed. Try a shorter clip or lower preset.".

(** The body of the [try] block of [generateGif]. *)
Definition convert (r : State) (f : File) : Prog unit :=
  loadFFmpeg r ;;
  act (setGenerating true) ;;
  act (setProgress (JS.of_Z 0)) ;;
  act (setStatus "Preparing video...") ;;
  t1 <- now ;;
  let inputName := inputName_of t1 f in
  t2 <- now ;;
  let paletteName := paletteName_of t2 in
  t3 <- now ;;
  let outputName := outputName_of t3 in
  input <- await (fetchFile f) ;;
  await (ffmpeg_writeFile inputName input) ;;
  act (setStatus "Generating color palette...") ;;
  await (ffmpeg_exec (paletteArgs (inputs r) inputName paletteName)) ;;
  act (setStatus "Rendering GIF...") ;;
  await (ffmpeg_exec (renderArgs (inputs r) inputName paletteName outputName)) ;;
  data <- await (ffmpeg_readFile outputName) ;;
  let blob := {| blob_bytes := to_bytes data; blob_type := "image/gif" |} in
  match truthy (gifUrl r) with
  | Some u => act (URL_revokeObjectURL u)
  | None => Ret tt
  end ;;
  url <- createObjectURL blob ;;
  act (setGifUrl url) ;;
  act (setStatus (done_status blob)) ;;
  await (ffmpeg_deleteFile inputName) ;;
  await (ffmpeg_deleteFile paletteName) ;;
  await (ffmpeg_deleteFile outputName) ;;
  Ret tt.

Definition generateGif (r : State) : Prog unit :=
  act (invoke fn_generateGif) ;;
  match file (inputs r) with
  | None => act (setStatus "Choose a video file first.")
  | Some f =>
      finally
        (try_catch (convert r f)
           (fun error => act (console_error error) ;; act (setStatus failed_status)))
        (act (setGenerating false))
  end.

(* ===================================================================== *)
(** ** Running a program

    The page holds the live state of the component, the object URLs minted
    and revoked so far and the console.  The engine, the network and the
    clock are the environment: any state [ES], any answer to an awaited call
    ([respond]), any reading of the clock ([clock]). *)
(* ===================================================================== *)

(** What a run leaves in the log. *)
Inductive Event : Type :=
| did (a : Action)
| clock_read (t : JS.number)
| minted_url (b : Blob) (u : string)
| called (c : Ext) (r : Err + Ext_ret c).

Inductive Outcome (R : Type) : Type :=
| Returned (r : R)
| Thrown (e : Err).

Arguments Returned {R} r.
Arguments Thrown {R} e.

(** The [n]-th object URL of the page. *)
Definition object_url (n : nat) : string :=
  "blob:gif-maker/" ++ JS.dec (Z.of_nat n).

(** What the user does between two conversions. *)
Inductive Gesture : Type :=
| Edit (f : Inputs -> Inputs)
| CreateGIF
| Preload.

Section Run.

Variable ES : Type.
Variable respond : forall c : Ext, ES -> (Err + Ext_ret c) * ES.
Variable clock : ES -> JS.number * ES.

Record World : Type := {
  react : State;
  minted : list string;
  revoked : list string;
  console : list Err;
  listeners : nat;
  env : ES;
  log : list Event
}.

Definition new_world (s : State) (e : ES) : World :=
  {| react := s; minted := []; revoked := []; console := []; listeners := 0;
     env := e; log := [] |}.

(** The same page with an empty log. *)
Definition unlogged (w : World) : World :=
  {| react := react w; minted := minted w; revoked := revoked w;
     console := console w; listeners := listeners w; env := env w;
     log := [] |}.

(** The object URLs that are minted and not revoked. *)
Definition live (w : World) : list string :=
  filter (fun u => negb (existsb (String.eqb u) (revoked w))) (minted w).

Definition record (ev : Event) (w : World) : World :=
  {| react := react w; minted := minted w; revoked := revoked w;
     console := console w; listeners := listeners w; env := env w;
     log := (log w ++ [ev])%list |}.

Definition set_react (s : State) (w : World) : World :=
  {| react := s; minted := minted w; revoked := revoked w;
     console := console w; listeners := listeners w; env := env w;
     log := log w |}.

Definition set_env (e : ES) (w : World) : World :=
  {| react := react w; minted := minted w; revoked := revoked w;
     console := console w; listeners := listeners w; env := e;
     log := log w |}.

Definition perform (a : Action) (w : World) : World :=
  match a with
  | setStatus s => set_react (with_status s (react w)) w
  | setProgress p => set_react (with_progress p (react w)) w
  | setGenerating b => set_react (with_generating b (react w)) w
  | setLoaded b => set_react (with_loaded b (react w)) w
  | setGifUrl u => set_react (with_gifUrl (Some u) (react w)) w
  | ffmpeg_on_progress =>
      {| react := react w; minted := minted w; revoked := revoked w;
         console := console w; listeners := S (listeners w); env := env w;
         log := log w |}
  | URL_revokeObjectURL u =>
      {| react := react w; minted := minted w; revoked := u :: revoked w;
         console := console w; listeners := listeners w; env := env w;
         log := log w |}
  | console_error e =>
      {| react := react w; minted := minted w; revoked := revoked w;
         console := (console w ++ [e])%list; listeners := listeners w;
         env := env w; log := log w |}
  | invoke _ => w
  end.

Definition do_action (a : Action) (w : World) : World :=
  record (did a) (perform a w).

Definition read_clock (w : World) : JS.number * World :=
  let (t, e) := clock (env w) in (t, record (clock_read t) (set_env e w)).

Definition mint (b : Blob) (w : World) : string * World :=
  let u := object_url (List.length (minted w)) in
  (u, record (minted_url b u)
        {| react := react w; minted := (minted w ++ [u])%list;
           revoked := revoked w; console := console w;
           listeners := listeners w; env := env w; log := log w |}).

(** An awaited call settles. *)
Definition settle (c : Ext) (w : World) : (Err + Ext_ret c) * World :=
  let (r, e) := respond c (env w) in (r, record (called c r) (set_env e w)).

(** A program run to its end, nothing else running in between. *)
Fixpoint run {R : Type} (p : Prog R) (w : World) : Outcome R * World :=
  match p with
  | Ret r => (Returned r, w)
  | Throw e => (Thrown e, w)
  | Act a k => run k (do_action a w)
  | Date_now k => let (t, w') := read_clock w in run (k t) w'
  | URL_createObjectURL b k => let (u, w') := mint b w in run (k u) w'
  | Await c k => let (r, w') := settle c w in run (k r) w'
  end.

(** "Create GIF" has [disabled={!file || generating}] and "Preload ffmpeg"
    has [disabled={loaded}]. *)
Definition create_enabled (s : State) : bool :=
  match file (inputs s) with
  | Some _ => negb (generating s)
  | None => false
  end.

Definition preload_enabled (s : State) : bool := negb (loaded s).

(** A gesture, its handler run to its end before the next one. *)
Definition gesture (g : Gesture) (w : World) : World :=
  match g with
  | Edit f => set_react (with_inputs (f (inputs (react w))) (react w)) w
  | CreateGIF =>
      if create_enabled (react w)
      then snd (run (generateGif (react w)) w) else w
  | Preload =>
      if preload_enabled (react w)
      then snd (run (loadFFmpeg (react w)) w) else w
  end.

Definition session (gs : list Gesture) (w : World) : World :=
  fold_left (fun w g => gesture g w) gs w.

(* --------------------------------------------------------------------- *)
(** *** Handlers that overlap

    A handler runs until it awaits; the page then takes the next gesture or
    lets the awaited call of a pending handler settle. *)

(** A pending handler: finished, or waiting for the call it has issued. *)
Inductive Task : Type :=
| Finished (o : Outcome unit)
| Waiting (c : Ext) (k : Err + Ext_ret c -> Prog unit).

Record Page : Type := {
  world : World;
  tasks : list Task;
  issued : list (nat * Ext)
}.

Definition new_page (w : World) : Page :=
  {| world := w; tasks := []; issued := [] |}.

(** Run to the next [await]. *)
Fixpoint advance (p : Prog unit) (w : World) : Task * World :=
  match p with
  | Ret r => (Finished (Returned r), w)
  | Throw e => (Finished (Thrown e), w)
  | Act a k => advance k (do_action a w)
  | Date_now k => let (t, w') := read_clock w in advance (k t) w'
  | URL_createObjectURL b k => let (u, w') := mint b w in advance (k u) w'
  | Await c k => (Waiting c k, w)
  end.

(** The call a task has just made, with the number of the task. *)
Definition issue (i : nat) (t : Task) (l : list (nat * Ext))
  : list (nat * Ext) :=
  match t with
  | Waiting c _ => (l ++ [(i, c)])%list
  | Finished _ => l
  end.

Fixpoint replace_nth {A : Type} (i : nat) (x : A) (l : list A) : list A :=
  match l, i with
  | [], _ => []
  | _ :: l', O => x :: l'
  | y :: l', S i' => y :: replace_nth i' x l'
  end.

(** A handler starts as a new task. *)
Definition start (p : Prog unit) (pg : Page) : Page :=
  let (t, w) := advance p (world pg) in
  {| world := w; tasks := (tasks pg ++ [t])%list;
     issued := issue (List.length (tasks pg)) t (issued pg) |}.

(** The call task [i] waits for settles, and the task goes on. *)
Definition resume (i : nat) (pg : Page) : Page :=
  match nth_error (tasks pg) i with
  | Some (Waiting c k) =>
      let (r, w) := settle c (world pg) in
      let (t, w') := advance (k r) w in
      {| world := w'; tasks := replace_nth i t (tasks pg);
         issued := issue i t (issued pg) |}
  | _ => pg
  end.

Inductive Step : Type :=
| User (g : Gesture)
| Settle (i : nat).

Definition step (s : Step) (pg : Page) : Page :=
  match s with
  | User (Edit f) =>
      {| world := gesture (Edit f) (world pg); tasks := tasks pg;
         issued := issued pg |}
  | User CreateGIF =>
      if create_enabled (react (world pg))
      then start (generateGif (react (world pg))) pg else pg
  | User Preload =>
      if preload_enabled (react (world pg))
      then start (loadFFmpeg (react (world pg))) pg else pg
  | Settle i => resume i pg
  end.

Definition steps (l : list Step) (pg : Page) : Page :=
  fold_left (fun pg s => step s pg) l pg.

End Run.

Arguments World ES : clear implicits.
Arguments Page ES : clear implicits.
Arguments new_world {ES} s e.
Arguments unlogged {ES} w.
Arguments live {ES} w.
Arguments react {ES} w.
Arguments minted {ES} w.
Arguments revoked {ES} w.
Arguments console {ES} w.
Arguments listeners {ES} w.
Arguments env {ES} w.
Arguments log {ES} w.
Arguments run {ES} respond clock {R} p w.
Arguments settle {ES} respond c w.
Arguments read_clock {ES} clock w.
Arguments mint {ES} b w.
Arguments do_action {ES} a w.
Arguments perform {ES} a w.
Arguments record {ES} ev w.
Arguments set_react {ES} s w.
Arguments set_env {ES} e w.
Arguments gesture {ES} respond clock g w.
Arguments session {ES} respond clock gs w.
Arguments new_page {ES} w.
Arguments world {ES} p.
Arguments tasks {ES} p.
Arguments issued {ES} p.
Arguments advance {ES} clock p w.
Arguments start {ES} clock p pg.
Arguments resume {ES} respond clock i pg.
Arguments step {ES} respond clock s pg.
Arguments steps {ES} respond clock l pg.

(* ===================================================================== *)
(** ** A scripted environment

    The state counts the awaited calls settled so far.  Call number
    [fail_at] rejects, every other call resolves; [ffmpeg.readFile] resolves
    to [output]; the clock stands still. *)
(* ===================================================================== *)

Module Script.

Definition resolve (output : FileData) (c : Ext) : Ext_ret c :=
  match c return Ext_ret c with
  | fetchFile f => content f
  | toBlobURL url _ => "blob:" ++ url
  | ffmpeg_load _ _ => true
  | ffmpeg_writeFile _ _ => true
  | ffmpeg_exec _ => JS.of_Z 0
  | ffmpeg_readFile _ => output
  | ffmpeg_deleteFile _ => true
  end.

Definition respond (fail_at : option nat) (output : FileData)
    (c : Ext) (n : nat) : (Err + Ext_ret c) * nat :=
  (match fail_at with
   | Some k => if Nat.eqb k n then inl "rejected" else inr (resolve output c)
   | None => inr (resolve output c)
   end, S n).

Definition clock (n : nat) : JS.number * nat := (JS.of_Z 1700000000000, n).

(** A six-byte GIF header as the output of the engine. *)
Definition gif_bytes : bytes :=
  [Byte.x47; Byte.x49; Byte.x46; Byte.x38; Byte.x39; Byte.x61].

Definition clip : File :=
  {| name := "clip.mp4"; content := [Byte.x00; Byte.x01; Byte.x02] |}.

(** The first render after the clip is chosen. *)
Definition chosen : State :=
  with_inputs (setFile (Some clip) initial_inputs) initial_state.

End Script.

(* ===================================================================== *)
(** ** Reading a log *)
(* ===================================================================== *)



(** The token after [flag], when [flag] is the token at position [n]. *)
Definition flag_at (n : nat) (flag : string) (args : list string)
  : option string :=
  match nth_error args n with
  | Some t => if String.eqb t flag then nth_error args (S n) else None
  | None => None
  end.







(** The awaited calls that rejected. *)
Fixpoint failures (l : list Event) : list Ext :=
  match l with
  | [] => []
  | called c (inl _) :: l' => c :: failures l'
  | _ :: l' => failures l'
  end.

(** The paths [ffmpeg.deleteFile] was called with. *)
Fixpoint deleted (l : list Event) : list string :=
  match l with
  | [] => []
  | called (ffmpeg_deleteFile p) _ :: l' => p :: deleted l'
  | _ :: l' => deleted l'
  end.

(** The argument lists [ffmpeg.exec] was called with. *)
Fixpoint executed (l : list Event) : list (list string) :=
  match l with
  | [] => []
  | called (ffmpeg_exec a) _ :: l' => a :: executed l'
  | _ :: l' => executed l'
  end.

(** The paths written with [ffmpeg.writeFile] that resolved. *)
Fixpoint written (l : list Event) : list string :=
  match l with
  | [] => []
  | called (ffmpeg_writeFile p _) (inr _) :: l' => p :: written l'
  | _ :: l' => written l'
  end.

Fixpoint clock_reads (l : list Event) : list JS.number :=
  match l with
  | [] => []
  | clock_read t :: l' => t :: clock_reads l'
  | _ :: l' => clock_reads l'
  end.


(** What [ffmpeg.readFile] resolved to. *)
Definition read_of (ev : Event) : option FileData :=
  match ev with
  | called c r =>
      match c as c0 return Err + Ext_ret c0 -> option FileData with
      | ffmpeg_readFile _ =>
          fun r => match r with inr d => Some d | inl _ => None end
      | _ => fun _ => None
      end r
  | _ => None
  end.

Fixpoint read_back (l : list Event) : list FileData :=
  match l with
  | [] => []
  | ev :: l' =>
      match read_of ev with
      | Some d => d :: read_back l'
      | None => read_back l'
      end
  end.

Definition is_delete (c : Ext) : bool :=
  match c with ffmpeg_deleteFile _ => true | _ => false end.

Definition is_exec (c : Ext) : bool :=
  match c with ffmpeg_exec _ => true | _ => false end.

(** A list of tokens occurs in an argument list; a text occurs in a string. *)
Definition tokens_in (needle hay : list string) : Prop :=
  exists pre post, hay = (pre ++ needle ++ post)%list.

Definition occurs_in (needle hay : string) : Prop :=
  exists pre post, hay = pre ++ needle ++ post.

(** An argument of the list holds the text. *)
Definition filter_with (clause : string) (args : list string) : Prop :=
  exists a, In a args /\ occurs_in clause a.

(** The events of a run from [w], and the page it leaves. *)
Definition events_of {ES : Type} (respond : forall c : Ext, ES -> (Err + Ext_ret c) * ES)
    (clock : ES -> JS.number * ES) (p : Prog unit) (w : World ES)
  : list Event :=
  log (snd (run respond clock p (unlogged w))).

(** The awaited calls of a log, in order. *)
Fixpoint calls (l : list Event) : list Ext :=
  match l with
  | [] => []
  | called c _ :: l' => c :: calls l'
  | _ :: l' => calls l'
  end.







(** The calls the tasks of a page are waiting for. *)
Definition in_flight {ES : Type} (pg : Page ES) : list Ext :=
  flat_map (fun t => match t with
                     | Waiting c _ => [c]
                     | Finished _ => []
                     end) (tasks pg).

(** How the tasks of a page ended, [None] for a task that has not. *)
Definition outcomes {ES : Type} (pg : Page ES) : list (option (Outcome unit)) :=
  map (fun t => match t with
                | Finished o => Some o
                | Waiting _ _ => None
                end) (tasks pg).

(** The object URLs of a page are in order: the [n] minted so far are the
    first [n] URLs, [gifUrl] is the last of them, and the revoked ones are
    all the others. *)
Definition handles_ok {ES : Type} (w : World ES) : Prop :=
  minted w = map object_url (seq 0 (List.length (minted w)))
  /\ gifUrl (react w) = last (map Some (minted w)) None
  /\ (forall u, In u (revoked w) <->
                exists i, (S i < List.length (minted w))%nat /\ u = object_url i).

(** [revoked] after the [if (gifUrl) URL.revokeObjectURL(gifUrl)] of a
    render whose [gifUrl] is [u]. *)
Definition revoke_previous (u : option string) (l : list string)
  : list string :=
  match truthy u with
  | Some s => s :: l
  | None => l
  end.

(* --------------------------------------------------------------------- *)
(** *** The error taxonomy of the specification *)

Inductive Phase : Type := palette | render.

Inductive ErrorClass : Type :=
| InvalidPreset
| NoInputFile
| EngineLoadError
| TranscodeError (phase : Phase)
| OutputReadError
| JobInProgress.

(** What the caller of a handler can see when it is over: how the call
    ended, the state of the component and the console. *)
Definition Report : Type := Outcome unit * State * list Err.

Definition report {ES : Type} (res : Outcome unit * World ES) : Report :=
  (fst res, react (snd res), console (snd res)).

(** The tasks in the order of their calls, equal neighbours merged: each
    task appears once when the calls of the tasks do not interleave. *)
Fixpoint turns (l : list nat) : list nat :=
  match l with
  | [] => []
  | a :: t =>
      match t with
      | b :: _ => if Nat.eqb a b then turns t else a :: turns t
      | [] => [a]
      end
  end.

Definition serialized (l : list (nat * Ext)) : bool :=
  let t := turns (map fst l) in
  (List.length (nodup Nat.eq_dec t) =? List.length t)%nat.

(* ===================================================================== *)
(** ** Runs in the scripted environment *)
(* ===================================================================== *)

Module Runs.
Import Script.

(** The page, just after the clip is chosen; nothing is loaded. *)
Definition first_world : World nat := new_world chosen 0%nat.

(** The environment in which every call resolves. *)
Definition all_resolve : forall c : Ext, nat -> (Err + Ext_ret c) * nat :=
  respond None (Uint8Array gif_bytes).

(** One click on "Create GIF" where call number [k] rejects; the calls are
    numbered from 0: the two [toBlobURL], [ffmpeg.load], [fetchFile],
    [ffmpeg.writeFile], the palette pass, the render pass,
    [ffmpeg.readFile] and the three [ffmpeg.deleteFile]. *)
Definition job (fail_at : option nat) (output : FileData)
  : Outcome unit * World nat :=
  run (respond fail_at output) clock (generateGif chosen) (unlogged first_world).

Definition palette_failure : Outcome unit * World nat :=
  job (Some 5%nat) (Uint8Array gif_bytes).

Definition render_failure : Outcome unit * World nat :=
  job (Some 6%nat) (Uint8Array gif_bytes).


(** Two conversions one after the other; in the second one the first
    [ffmpeg.deleteFile] rejects (call 16 of the session). *)
Definition after_first : World nat :=
  session (respond (Some 16%nat) (Uint8Array gif_bytes)) clock
    [CreateGIF] first_world.

Definition after_second : World nat :=
  session (respond (Some 16%nat) (Uint8Array gif_bytes)) clock
    [CreateGIF] after_first.

(** The clip at twice the speed. *)
Definition doubled : State :=
  with_inputs (setSpeed (JS.of_Z 2) (inputs chosen)) chosen.

(** Three conversions one after the other, every call resolves. *)
Definition three_conversions : list Gesture := [CreateGIF; CreateGIF; CreateGIF].

(** Two clicks on "Preload ffmpeg" before the first load is over: both
    handlers get their two blob URLs and call [ffmpeg.load]. *)
Definition two_loads : Page nat :=
  steps (respond None (Uint8Array gif_bytes)) clock
    [User Preload; User Preload; Settle 0; Settle 0; Settle 1; Settle 1]%nat
    (new_page (new_world initial_state 0%nat)).

(** Two clicks on "Create GIF" while the engine loads ([generating] is
    still [false]); then the calls of the two jobs settle in turn. *)
Definition two_jobs : Page nat :=
  steps (respond None (Uint8Array gif_bytes)) clock
    [User CreateGIF; User CreateGIF;
     Settle 0; Settle 0; Settle 0; Settle 1; Settle 1; Settle 1;
     Settle 0; Settle 1; Settle 0; Settle 1; Settle 0; Settle 1;
     Settle 0; Settle 1; Settle 0; Settle 1; Settle 0; Settle 1;
     Settle 0; Settle 1; Settle 0; Settle 1]%nat
    (new_page first_world).

End Runs.

(* ===================================================================== *)
(** ** The rest of the component *)
(* ===================================================================== *)

(** *** [gifName]

    [file.name.replace(/\.[^.]+$/, '')]: the regular expression matches at
    a dot that is followed, up to the end of the name, by one or more
    characters none of which is a dot; the search goes from the left and
    the first match is removed. *)

Definition is_dot (c : ascii) : bool := Ascii.eqb c ".".

Fixpoint no_dot (s : string) : bool :=
  match s with
  | EmptyString => true
  | String c s' => negb (is_dot c) && no_dot s'
  end.

(** The expression matches at the first character of [s]. *)
Definition extension_here (s : string) : bool :=
  match s with
  | EmptyString => false
  | String c rest =>
      is_dot c && negb (String.eqb rest "") && no_dot rest
  end.

Fixpoint strip_extension (s : string) : string :=
  if extension_here s then ""
  else match s with
       | EmptyString => ""
       | String c s' => String c (strip_extension s')
       end.

(** The [useMemo] of [gifName], from the [file] of the render. *)
Definition gifName (f : option File) : string :=
  match f with
  | None => "output.gif"
  | Some x => strip_extension (name x) ++ ".gif"
  end.

(** *** Ranges

    The interval [[0, 1]] of a progress, and the [min] and [max] of a
    number input. *)


Definition in_unit (x : JS.number) : bool :=
  JS.leb (JS.of_Z 0) x && JS.leb x (JS.of_Z 1).

(** The text a rejected call was rejected with. *)
Definition rejection_of (ev : Event) : option Err :=
  match ev with
  | called _ (inl e) => Some e
  | _ => None
  end.

Fixpoint rejections (l : list Event) : list Err :=
  match l with
  | [] => []
  | ev :: l' =>
      match rejection_of ev with
      | Some e => e :: rejections l'
      | None => rejections l'
      end
  end.

(** The calls that bring the engine: the two [toBlobURL] and [ffmpeg.load]. *)
Definition is_load_call (c : Ext) : bool :=
  match c with
  | toBlobURL _ _ | ffmpeg_load _ _ => true
  | _ => false
  end.

(** An environment that answers as [respond] does, except that every
    [ffmpeg.exec] that resolves resolves to [code]. *)
Definition with_exit_code {ES : Type} (code : JS.number)
    (respond : forall c : Ext, ES -> (Err + Ext_ret c) * ES)
    (c : Ext) (e : ES) : (Err + Ext_ret c) * ES :=
  match c as c0 return (Err + Ext_ret c0) * ES -> (Err + Ext_ret c0) * ES with
  | ffmpeg_exec _ =>
      fun x => match fst x with
               | inr _ => (inr code, snd x)
               | inl err => (inl err, snd x)
               end
  | _ => fun x => x
  end (respond c e).

(** What a run leaves apart from the log. *)
Definition visible {ES : Type} (w : World ES)
  : State * list string * list string * list Err * nat * ES :=
  (react w, minted w, revoked w, console w, listeners w, env w).

(** Two runs end alike: the same outcome and, the log apart, the same
    page. *)
Definition same_end {ES : Type} (a b : Outcome unit * World ES) : Prop :=
  fst a = fst b /\ visible (snd a) = visible (snd b).

(** The runs of the handlers in a run of gestures that found [loaded]
    false and a way into [loadFFmpeg]: a click on "Preload ffmpeg", or one
    on "Create GIF" with a file. *)
Definition enters_load (g : Gesture) (s : State) : bool :=
  match g with
  | Edit _ => false
  | CreateGIF => create_enabled s && negb (loaded s)
  | Preload => preload_enabled s
  end.

(* ===================================================================== *)
(** ** Facts about numbers and their formatting *)
(* ===================================================================== *)

Module JSFacts.
Import JS.

(** The conversions on known values. *)
Example Number_toString_examples :
  Number_toString (of_decimal 1 1) = "0.1"
  /\ Number_toString (of_decimal 123456 3) = "123.456"
  /\ Number_toString (of_Z 1700000000000) = "1700000000000"
  /\ Number_toString (of_Z (10 ^ 21)) = "1e+21"
  /\ Number_toString (of_decimal 1 7) = "1e-7"
  /\ Number_toString (SFopp (of_decimal 25 2)) = "-0.25".
Proof. vm_compute. repeat split; reflexivity. Qed.

Example Number_toFixed_examples :
  Number_toFixed 2 (of_Z 2) = "2.00"
  /\ Number_toFixed 2 (of_decimal 1005 3) = "1.00"
  /\ Number_toFixed 2 (of_decimal 12345678 3) = "12345.68"
  /\ Number_toFixed 2 (SFopp (of_decimal 1 3)) = "-0.00"
  /\ Number_toFixed 2 (of_Z (10 ^ 21)) = "1e+21"
  /\ Number_toFixed 2 NaN = "NaN".
Proof. vm_compute. repeat split; reflexivity. Qed.

Example Math_max_examples :
  Math_max (of_Z 0) (SFopp (of_Z 3)) = of_Z 0
  /\ Math_max (of_Z 0) NaN = NaN
  /\ Math_max (S754_zero true) (S754_zero false) = S754_zero false
  /\ Math_min (of_Z 256) (of_Z 500) = of_Z 256.
Proof. vm_compute. repeat split; reflexivity. Qed.

Lemma dyadic_compare_refl m e : dyadic_compare m e m e = Eq.
Proof. unfold dyadic_compare. apply Z.compare_refl. Qed.

Lemma compare_refl x : is_nan x = false -> compare x x = Some Eq.
Proof.
  destruct x as [s|s| |s m e]; simpl; intros H; try discriminate.
  - reflexivity.
  - destruct s; reflexivity.
  - now rewrite dyadic_compare_refl.
Qed.

Lemma leb_refl x : is_nan x = false -> leb x x = true.
Proof. intros H. unfold leb. now rewrite compare_refl. Qed.

Lemma ltb_leb x y : ltb x y = true -> leb x y = true.
Proof. unfold ltb, leb. now destruct (compare x y) as [[]|]. Qed.

Lemma zeros_leb a b : is_neg_zero a = true -> is_pos_zero b = true ->
  leb a b = true /\ leb b a = true.
Proof.
  destruct a as [[]| | |]; try discriminate.
  destruct b as [[]| | |]; try discriminate. split; reflexivity.
Qed.

Lemma Math_max_cases a b :
  Math_max a b = NaN \/ Math_max a b = a \/ Math_max a b = b.
Proof.
  unfold Math_max.
  destruct (is_nan a || is_nan b); [now left|].
  destruct (is_pos_zero b && is_neg_zero a); [now right; right|].
  destruct (ltb a b); auto.
Qed.

Lemma Math_max_not_nan a b :
  is_nan a = false -> is_nan b = false -> is_nan (Math_max a b) = false.
Proof.
  intros Ha Hb. unfold Math_max. rewrite Ha, Hb. simpl.
  destruct (is_pos_zero b && is_neg_zero a); [assumption|].
  now destruct (ltb a b).
Qed.

Lemma Math_min_not_nan a b :
  is_nan a = false -> is_nan b = false -> is_nan (Math_min a b) = false.
Proof.
  intros Ha Hb. unfold Math_min. rewrite Ha, Hb. simpl.
  destruct (is_neg_zero b && is_pos_zero a); [assumption|].
  now destruct (ltb b a).
Qed.

(** [Math.max(a, b)] is at least [a]. *)
Lemma Math_max_lower a b :
  is_nan a = false -> is_nan b = false -> leb a (Math_max a b) = true.
Proof.
  intros Ha Hb. unfold Math_max. rewrite Ha, Hb. simpl.
  destruct (is_pos_zero b && is_neg_zero a) eqn:Hz.
  - apply andb_prop in Hz. destruct Hz as [H1 H2].
    exact (proj1 (zeros_leb a b H2 H1)).
  - destruct (ltb a b) eqn:Hl; [now apply ltb_leb | now apply leb_refl].
Qed.

(** [Math.min(a, b)] is at most [a]. *)
Lemma Math_min_upper a b :
  is_nan a = false -> is_nan b = false -> leb (Math_min a b) a = true.
Proof.
  intros Ha Hb. unfold Math_min. rewrite Ha, Hb. simpl.
  destruct (is_neg_zero b && is_pos_zero a) eqn:Hz.
  - apply andb_prop in Hz. destruct Hz as [H1 H2].
    exact (proj1 (zeros_leb b a H1 H2)).
  - destruct (ltb b a) eqn:Hl; [now apply ltb_leb | now apply leb_refl].
Qed.

Lemma dyadic_compare_antisym m1 e1 m2 e2 :
  dyadic_compare m1 e1 m2 e2 = CompOpp (dyadic_compare m2 e2 m1 e1).
Proof.
  unfold dyadic_compare. rewrite (Z.min_comm e2 e1). apply Z.compare_antisym.
Qed.

Lemma compare_antisym x y :
  compare x y = option_map CompOpp (compare y x).
Proof.
  destruct x as [sx|sx| |sx mx ex], y as [sy|sy| |sy my ey]; simpl;
    try reflexivity;
    try (now destruct sx); try (now destruct sy);
    try (now destruct sx, sy);
    try (now rewrite dyadic_compare_antisym).
Qed.

Lemma ltb_asym x y : ltb x y = true -> ltb y x = false.
Proof.
  unfold ltb. rewrite (compare_antisym y x).
  now destruct (compare x y) as [[]|].
Qed.

Lemma ltb_not_nan x y : ltb x y = true -> is_nan x = false /\ is_nan y = false.
Proof. unfold ltb. now destruct x, y. Qed.

(** Below the bound the maximum is the bound. *)
Lemma Math_max_below a b : ltb b a = true -> Math_max a b = a.
Proof.
  intros Hl. unfold Math_max.
  destruct (ltb_not_nan _ _ Hl) as [Hb Ha]. rewrite Ha, Hb. simpl.
  rewrite (ltb_asym _ _ Hl).
  destruct (is_pos_zero b && is_neg_zero a) eqn:Hz; [|reflexivity].
  apply andb_prop in Hz. destruct Hz as [Hz1 Hz2].
  destruct a as [[]| | |]; try discriminate.
  destruct b as [[]| | |]; discriminate.
Qed.

(** Comparing at any exponent below both. *)
Lemma dyadic_compare_at e m1 e1 m2 e2 :
  e <= e1 -> e <= e2 ->
  dyadic_compare m1 e1 m2 e2 = (m1 * 2 ^ (e1 - e) ?= m2 * 2 ^ (e2 - e)).
Proof.
  intros H1 H2. unfold dyadic_compare. cbv zeta.
  set (k := Z.min e1 e2).
  assert (Hk : e <= k) by (unfold k; lia).
  assert (Hk1 : k <= e1) by (unfold k; lia).
  assert (Hk2 : k <= e2) by (unfold k; lia).
  replace (e1 - e) with ((e1 - k) + (k - e)) by lia.
  replace (e2 - e) with ((e2 - k) + (k - e)) by lia.
  rewrite !Z.pow_add_r by lia. rewrite !Z.mul_assoc.
  assert (Hp : 0 < 2 ^ (k - e)) by (apply Z.pow_pos_nonneg; lia).
  destruct (Z.compare_spec (m1 * 2 ^ (e1 - k)) (m2 * 2 ^ (e2 - k))) as [E|E|E];
    symmetry.
  - rewrite E. apply Z.compare_refl.
  - apply Z.compare_lt_iff. nia.
  - apply Z.compare_gt_iff. nia.
Qed.

Lemma dyadic_compare_le_lt m1 e1 m2 e2 m3 e3 :
  dyadic_compare m1 e1 m2 e2 <> Gt ->
  dyadic_compare m2 e2 m3 e3 = Lt ->
  dyadic_compare m1 e1 m3 e3 = Lt.
Proof.
  set (e := Z.min e1 (Z.min e2 e3)).
  rewrite (dyadic_compare_at e m1 e1 m2 e2) by (unfold e; lia).
  rewrite (dyadic_compare_at e m2 e2 m3 e3) by (unfold e; lia).
  rewrite (dyadic_compare_at e m1 e1 m3 e3) by (unfold e; lia).
  rewrite Z.compare_le_iff, !Z.compare_lt_iff. lia.
Qed.

Lemma dyadic_compare_lt_le m1 e1 m2 e2 m3 e3 :
  dyadic_compare m1 e1 m2 e2 = Lt ->
  dyadic_compare m2 e2 m3 e3 <> Gt ->
  dyadic_compare m1 e1 m3 e3 = Lt.
Proof.
  set (e := Z.min e1 (Z.min e2 e3)).
  rewrite (dyadic_compare_at e m1 e1 m2 e2) by (unfold e; lia).
  rewrite (dyadic_compare_at e m2 e2 m3 e3) by (unfold e; lia).
  rewrite (dyadic_compare_at e m1 e1 m3 e3) by (unfold e; lia).
  rewrite Z.compare_le_iff, !Z.compare_lt_iff. lia.
Qed.

Lemma compare_finite x y :
  is_finite x = true -> is_finite y = true ->
  compare x y = Some (dyadic_compare (mant x) (expo x) (mant y) (expo y)).
Proof. destruct x, y; try discriminate; reflexivity. Qed.

Lemma leb_not_nan x y : leb x y = true -> is_nan x = false /\ is_nan y = false.
Proof. unfold leb. now destruct x, y. Qed.

Ltac order_cases x y z :=
  destruct x as [[]|[]| |[] ? ?]; try discriminate;
  destruct y as [[]|[]| |[] ? ?]; try discriminate;
  destruct z as [[]|[]| |[] ? ?]; try discriminate;
  simpl; intros; try discriminate; try reflexivity; try assumption.

(** [x <= y] and [y < z] give [x < z]. *)
Lemma leb_ltb_trans x y z :
  leb x y = true -> ltb y z = true -> ltb x z = true.
Proof.
  unfold leb, ltb.
  destruct (is_finite x) eqn:Hx, (is_finite y) eqn:Hy, (is_finite z) eqn:Hz.
  - rewrite !compare_finite by assumption.
    intros H1 H2.
    rewrite (dyadic_compare_le_lt (mant x) (expo x) (mant y) (expo y)
               (mant z) (expo z)).
    + reflexivity.
    + intros E. rewrite E in H1. discriminate H1.
    + now destruct (dyadic_compare (mant y) (expo y) (mant z) (expo z)).
  - order_cases x y z.
  - order_cases x y z.
  - order_cases x y z.
  - order_cases x y z.
  - order_cases x y z.
  - order_cases x y z.
  - order_cases x y z.
Qed.

(** [x < y] and [y <= z] give [x < z]. *)
Lemma ltb_leb_trans x y z :
  ltb x y = true -> leb y z = true -> ltb x z = true.
Proof.
  unfold leb, ltb.
  destruct (is_finite x) eqn:Hx, (is_finite y) eqn:Hy, (is_finite z) eqn:Hz.
  - rewrite !compare_finite by assumption.
    intros H1 H2.
    rewrite (dyadic_compare_lt_le (mant x) (expo x) (mant y) (expo y)
               (mant z) (expo z)).
    + reflexivity.
    + now destruct (dyadic_compare (mant x) (expo x) (mant y) (expo y)).
    + intros E. rewrite E in H2. discriminate H2.
  - order_cases x y z.
  - order_cases x y z.
  - order_cases x y z.
  - order_cases x y z.
  - order_cases x y z.
  - order_cases x y z.
  - order_cases x y z.
Qed.

(** [x <= y] excludes [y < x]; of two numbers one is at most the other. *)
Lemma leb_not_ltb x y : leb x y = true -> ltb y x = false.
Proof.
  unfold leb, ltb. rewrite (compare_antisym y x).
  now destruct (compare x y) as [[]|].
Qed.

Lemma leb_or_ltb x y :
  is_nan x = false -> is_nan y = false -> leb x y = true \/ ltb y x = true.
Proof.
  intros Hx Hy. unfold leb, ltb. rewrite (compare_antisym y x).
  destruct (compare x y) as [[]|] eqn:E; simpl; auto.
  destruct x, y; discriminate.
Qed.

(** [Math.max] with a bound [a] that is not [-0]: a value above the bound
    is kept, any other gives the bound. *)
Lemma Math_max_above a b : ltb a b = true -> Math_max a b = b.
Proof.
  intros Hl. unfold Math_max.
  destruct (ltb_not_nan _ _ Hl) as [Ha Hb]. rewrite Ha, Hb, Hl. simpl.
  now destruct (is_pos_zero b && is_neg_zero a).
Qed.

Lemma Math_max_floor a b :
  is_neg_zero a = false -> leb b a = true -> Math_max a b = a.
Proof.
  intros Hz Hl. unfold Math_max.
  destruct (leb_not_nan _ _ Hl) as [Hb Ha]. rewrite Ha, Hb, Hz. simpl.
  rewrite andb_false_r. now rewrite (leb_not_ltb _ _ Hl).
Qed.

(** [Math.min] with a bound [a] that is not [+0]: a value below the bound
    is kept, any other gives the bound. *)
Lemma Math_min_below a b : ltb b a = true -> Math_min a b = b.
Proof.
  intros Hl. unfold Math_min.
  destruct (ltb_not_nan _ _ Hl) as [Hb Ha]. rewrite Ha, Hb, Hl. simpl.
  now destruct (is_neg_zero b && is_pos_zero a).
Qed.

Lemma Math_min_cap a b :
  is_pos_zero a = false -> leb a b = true -> Math_min a b = a.
Proof.
  intros Hz Hl. unfold Math_min.
  destruct (leb_not_nan _ _ Hl) as [Ha Hb]. rewrite Ha, Hb, Hz. simpl.
  rewrite andb_false_r. now rewrite (leb_not_ltb _ _ Hl).
Qed.

Lemma Math_max_nan a b : is_nan b = true -> Math_max a b = NaN.
Proof. intros H. unfold Math_max. rewrite H. now rewrite orb_true_r. Qed.

Lemma Math_min_nan a b : is_nan b = true -> Math_min a b = NaN.
Proof. intros H. unfold Math_min. rewrite H. now rewrite orb_true_r. Qed.

End JSFacts.

(* --------------------------------------------------------------------- *)
(** *** Digits and fixed-point strings *)

Module FixedFacts.
Import JS.

Lemma length_app (a b : string) : length (a ++ b) = (length a + length b)%nat.
Proof. induction a as [|c a IH]; simpl; [reflexivity | now rewrite IH]. Qed.

Lemma append_assoc (a b c : string) : (a ++ b) ++ c = a ++ b ++ c.
Proof. induction a as [|x a IH]; simpl; [reflexivity | now rewrite IH]. Qed.

Lemma all_digits_app (a b : string) :
  all_digits (a ++ b) = all_digits a && all_digits b.
Proof.
  induction a as [|c a IH]; simpl; [reflexivity|].
  now rewrite IH, andb_assoc.
Qed.

Lemma all_digits_zeros n : all_digits (zeros n) = true.
Proof. induction n; simpl; auto. Qed.

Lemma length_zeros n : length (zeros n) = n.
Proof. induction n; simpl; auto. Qed.

Lemma all_digits_take n s : all_digits s = true -> all_digits (take n s) = true.
Proof.
  revert s. induction n as [|n IH]; intros [|c s]; simpl; auto.
  intros H. apply andb_prop in H. destruct H as [H1 H2].
  now rewrite H1, IH.
Qed.

Lemma all_digits_drop n s : all_digits s = true -> all_digits (drop n s) = true.
Proof.
  revert s. induction n as [|n IH]; intros [|c s]; simpl; auto.
  intros H. apply andb_prop in H. now apply IH.
Qed.

Lemma length_take n s : (n <= length s)%nat -> length (take n s) = n.
Proof.
  revert s. induction n as [|n IH]; intros [|c s]; simpl; intros H;
    try reflexivity; try lia.
  rewrite IH; [reflexivity | lia].
Qed.

Lemma length_drop n s : length (drop n s) = (length s - n)%nat.
Proof.
  revert s. induction n as [|n IH]; intros [|c s]; simpl; auto.
Qed.

Lemma take_app a b : take (length a) (a ++ b) = a.
Proof. induction a as [|c a IH]; simpl; [now destruct b | now rewrite IH]. Qed.

Lemma drop_app a b : drop (length a) (a ++ b) = b.
Proof. induction a as [|c a IH]; simpl; auto. Qed.

(** Digits, a point and two digits make a two-decimal string. *)
Lemma two_decimals_intro a b :
  all_digits a = true -> (1 <= length a)%nat ->
  all_digits b = true -> length b = 2%nat ->
  two_decimals (a ++ "." ++ b) = true.
Proof.
  intros Ha La Hb Lb. unfold two_decimals.
  rewrite !length_app, Lb. simpl length.
  replace (length a + (1 + 2) - 3)%nat with (length a) by lia.
  replace (length a + (1 + 2) - 2)%nat with (length (a ++ ".")).
  2:{ rewrite length_app. simpl. lia. }
  rewrite take_app, drop_app.
  replace (a ++ "." ++ b) with ((a ++ ".") ++ b).
  2:{ apply append_assoc. }
  rewrite drop_app, Ha, Hb. simpl.
  destruct (length a) eqn:E; [lia|].
  destruct n as [|[|[|n]]]; reflexivity.
Qed.

Lemma digits_of_uint d :
  all_digits (NilEmpty.string_of_uint d) = true.
Proof. induction d; simpl; auto. Qed.

Lemma all_digits_dec z : all_digits (dec z) = true.
Proof.
  unfold dec, NilZero.string_of_uint.
  destruct (N.to_uint (Z.to_N z)) eqn:E; try reflexivity;
    rewrite <- E; apply digits_of_uint.
Qed.

Lemma length_dec z : (1 <= length (dec z))%nat.
Proof.
  unfold dec, NilZero.string_of_uint.
  destruct (N.to_uint (Z.to_N z)); simpl; lia.
Qed.

(** [fixed_digits 2] always gives two decimals. *)
Lemma fixed_digits_two_decimals n : two_decimals (fixed_digits 2 n) = true.
Proof.
  unfold fixed_digits.
  set (m := if (length (dec n) <=? 2)%nat
            then zeros (2 + 1 - length (dec n)) ++ dec n else dec n).
  assert (Hd : all_digits m = true).
  { unfold m. destruct (length (dec n) <=? 2)%nat.
    - now rewrite all_digits_app, all_digits_zeros, all_digits_dec.
    - apply all_digits_dec. }
  assert (Hl : (3 <= length m)%nat).
  { unfold m. destruct (Nat.leb_spec (length (dec n)) 2).
    - rewrite length_app, length_zeros. pose proof (length_dec n). lia.
    - lia. }
  apply two_decimals_intro.
  - now apply all_digits_take.
  - rewrite length_take; lia.
  - now apply all_digits_drop.
  - rewrite length_drop. lia.
Qed.

Lemma pow2Q_pos e : (0 < pow2Q e)%Q.
Proof.
  unfold pow2Q. destruct (Z.leb_spec 0 e).
  - unfold Qlt. simpl. assert (0 < 2 ^ e) by (apply Z.pow_pos_nonneg; lia). lia.
  - apply Qinv_lt_0_compat. unfold Qlt. simpl.
    assert (0 < 2 ^ (- e)) by (apply Z.pow_pos_nonneg; lia). lia.
Qed.

(** Nothing below zero is above a number that is not below zero. *)
Lemma ltb_negative a b :
  is_finite a = true -> is_negative a = false -> ltb a b = true ->
  is_negative b = false.
Proof.
  intros Hf Ha Hl. destruct b as [s|s| |[] m e]; try reflexivity.
  exfalso. unfold ltb in Hl.
  destruct a as [sa|sa| |[] ma ea]; simpl in *; try discriminate.
  - unfold dyadic_compare in Hl.
    assert (H : Zneg m * 2 ^ (e - Z.min 0 e) < 0).
    { assert (0 < 2 ^ (e - Z.min 0 e)) by (apply Z.pow_pos_nonneg; lia).
      apply Z.mul_neg_pos; lia. }
    change (0 * 2 ^ (0 - Z.min 0 e)) with 0 in Hl.
    apply Z.compare_gt_iff in H. rewrite H in Hl. discriminate.
  - unfold dyadic_compare in Hl.
    assert (H : Zneg m * 2 ^ (e - Z.min ea e) < Zpos ma * 2 ^ (ea - Z.min ea e)).
    { assert (0 < 2 ^ (e - Z.min ea e)) by (apply Z.pow_pos_nonneg; lia).
      assert (0 < 2 ^ (ea - Z.min ea e)) by (apply Z.pow_pos_nonneg; lia).
      assert (Zneg m * 2 ^ (e - Z.min ea e) < 0) by (apply Z.mul_neg_pos; lia).
      assert (0 < Zpos ma * 2 ^ (ea - Z.min ea e)) by (apply Z.mul_pos_pos; lia).
      lia. }
    apply Z.compare_gt_iff in H. rewrite H in Hl. discriminate.
Qed.

(** [Math.max] with a bound that is not below zero is not below zero. *)
Lemma Math_max_not_negative a b :
  is_finite a = true -> is_negative a = false ->
  is_negative (Math_max a b) = false.
Proof.
  intros Hf Ha. unfold Math_max.
  destruct (is_nan a || is_nan b); [reflexivity|].
  destruct (is_pos_zero b && is_neg_zero a) eqn:Hz.
  - apply andb_prop in Hz. now destruct b as [[]| | |].
  - destruct (ltb a b) eqn:Hl; [now apply (ltb_negative a) | assumption].
Qed.

(** [toFixed] of a finite number in [[0, 10^21)] has two decimals. *)
Lemma toFixed_two_decimals x :
  is_finite x = true -> is_negative x = false ->
  ltb x (of_Z (10 ^ 21)) = true ->
  two_decimals (Number_toFixed 2 x) = true.
Proof.
  intros Hf Hz Hl. destruct x as [s|s| |s m e].
  - apply fixed_digits_two_decimals.
  - discriminate Hf.
  - discriminate Hf.
  - destruct s; [discriminate Hz|]. unfold Number_toFixed.
    rewrite Hl. apply fixed_digits_two_decimals.
Qed.

(** The digits are those of the nearest hundredth, the upper one on a tie. *)
Lemma toFixed_nearest s m e :
  ltb (S754_finite false m e) (of_Z (10 ^ 21)) = true ->
  let v := value (S754_finite false m e) in
  let n := round_half_up 2 v in
  Number_toFixed 2 (S754_finite s m e)
  = (if s then "-" else "") ++ fixed_digits 2 n
  /\ (inject_Z n <= v * 100 + (1 # 2) < inject_Z n + 1)%Q.
Proof.
  intros Hl v n. split.
  - unfold Number_toFixed. now rewrite Hl.
  - unfold n, round_half_up. change (inject_Z (10 ^ Z.of_nat 2)) with 100%Q.
    split; [apply Qfloor_le|].
    pose proof (Qlt_floor (v * 100 + (1 # 2))) as H.
    rewrite inject_Z_plus in H. exact H.
Qed.

End FixedFacts.

(* ===================================================================== *)
(** ** The arguments of the two passes *)
(* ===================================================================== *)

Module FilterGraph.
Import JS JSFacts FixedFacts.

(** C3: with fps 15, width 960, 256 colours, dither sierra2_4a, a start of
    2 s, a duration of 5 s and speed 1, the palette pass has the tokens
    [-ss 2.00] and [-t 5.00] and a filter with [palettegen=max_colors=256];
    with a loop count of 0 the render pass has a filter with
    [dither=sierra2_4a] and the tokens [-loop 0]. *)
Theorem C3_example_arguments (f : option File) (p : PresetKey) (dark : bool)
    (inputName paletteName outputName : string) :
  let i := {| file := f; preset := p; fps := of_Z 15; width := of_Z 960;
              colors := of_Z 256; dither := sierra2_4a;
              startSec := of_Z 2; durationSec := of_Z 5;
              loopCount := of_Z 0; speed := of_Z 1; isDark := dark |} in
  tokens_in ["-ss"; "2.00"] (paletteArgs i inputName paletteName)
  /\ tokens_in ["-t"; "5.00"] (paletteArgs i inputName paletteName)
  /\ filter_with "palettegen=max_colors=256"
       (paletteArgs i inputName paletteName)
  /\ filter_with "dither=sierra2_4a"
       (renderArgs i inputName paletteName outputName)
  /\ tokens_in ["-loop"; "0"] (renderArgs i inputName paletteName outputName).
Proof.
  intros i.
  assert (Hp : paletteArgs i inputName paletteName
               = ["-y"; "-i"; inputName; "-ss"; "2.00"; "-t"; "5.00";
                  "-frames:v"; "1"; "-update"; "1"; "-vf";
                  "fps=15,scale=960:-1:flags=lanczos,palettegen=max_colors=256:stats_mode=full";
                  paletteName]) by (vm_compute; reflexivity).
  assert (Hr : renderArgs i inputName paletteName outputName
               = ["-y"; "-i"; inputName; "-ss"; "2.00"; "-t"; "5.00";
                  "-i"; paletteName; "-lavfi";
                  "fps=15,scale=960:-1:flags=lanczos[x];[x][1:v]paletteuse=dither=sierra2_4a:diff_mode=rectangle";
                  "-loop"; "0"; outputName]) by (vm_compute; reflexivity).
  rewrite Hp, Hr. repeat split.
  - exists ["-y"; "-i"; inputName]. eexists. reflexivity.
  - exists ["-y"; "-i"; inputName; "-ss"; "2.00"]. eexists. reflexivity.
  - eexists. split.
    + do 12 right. left. reflexivity.
    + exists "fps=15,scale=960:-1:flags=lanczos,", ":stats_mode=full".
      reflexivity.
  - eexists. split.
    + do 10 right. left. reflexivity.
    + exists "fps=15,scale=960:-1:flags=lanczos[x];[x][1:v]paletteuse=",
        ":diff_mode=rectangle".
      reflexivity.
  - exists ["-y"; "-i"; inputName; "-ss"; "2.00"; "-t"; "5.00";
            "-i"; paletteName; "-lavfi";
            "fps=15,scale=960:-1:flags=lanczos[x];[x][1:v]paletteuse=dither=sierra2_4a:diff_mode=rectangle"].
    eexists. reflexivity.
Qed.

(** C4, as stated, fails: a duration of [1e21] seconds, which the duration
    input accepts, reaches the engine as [-t 1e+21], not with two decimals. *)
Lemma C4_counterexample :
  let i := setDurationSec (of_Z (10 ^ 21)) initial_inputs in
  trimArgs i = ["-ss"; "0.00"; "-t"; "1e+21"]
  /\ two_decimals (toFixed (trim_duration i)) = false.
Proof. vm_compute. split; reflexivity. Qed.

(** C4, amended: for every input that is not NaN, [colors] is clamped into
    [[2, 256]]: a value between 2 and 256 is kept, one at or below 2 gives
    2 and one at or above 256 gives 256 (500 gives 256, 0 gives 2);
    [durationSec] is floored at 0.2: a value above 0.2 is kept, any other
    gives 0.2 (0.05 gives [0.20]); [startSec] is floored at 0: a value
    above 0 is kept, any other gives 0 (a negative start gives [0.00]); a
    NaN stays NaN.  The floored values are the ones in the arguments, and
    the [-ss] and [-t] values have two decimals when the floored value is
    finite and below [10^21]. *)
Theorem C4_inputs_are_floored (i : Inputs) :
  (is_nan (colors i) = false ->
     leb (of_Z 2) (max_colors i) = true /\ leb (max_colors i) (of_Z 256) = true)
  /\ (is_nan (startSec i) = false -> leb (of_Z 0) (trim_start i) = true)
  /\ (ltb (startSec i) (of_Z 0) = true -> toFixed (trim_start i) = "0.00")
  /\ (is_nan (durationSec i) = false ->
        leb (of_decimal 2 1) (trim_duration i) = true)
  /\ (ltb (durationSec i) (of_decimal 2 1) = true ->
        toFixed (trim_duration i) = "0.20")
  /\ (is_finite (trim_start i) = true ->
      ltb (trim_start i) (of_Z (10 ^ 21)) = true ->
        two_decimals (toFixed (trim_start i)) = true)
  /\ (is_finite (trim_duration i) = true ->
      ltb (trim_duration i) (of_Z (10 ^ 21)) = true ->
        two_decimals (toFixed (trim_duration i)) = true)
  /\ Number_toString (max_colors (setColors (of_Z 500) i)) = "256"
  /\ Number_toString (max_colors (setColors (of_Z 0) i)) = "2"
  /\ toFixed (trim_duration (setDurationSec (of_decimal 5 2) i)) = "0.20"
  /\ trimArgs i = ["-ss"; toFixed (trim_start i); "-t"; toFixed (trim_duration i)]
  /\ (leb (startSec i) (of_Z 0) = true -> trim_start i = of_Z 0)
  /\ (ltb (of_Z 0) (startSec i) = true -> trim_start i = startSec i)
  /\ (leb (durationSec i) (of_decimal 2 1) = true ->
        trim_duration i = of_decimal 2 1)
  /\ (ltb (of_decimal 2 1) (durationSec i) = true ->
        trim_duration i = durationSec i)
  /\ (leb (colors i) (of_Z 2) = true -> max_colors i = of_Z 2)
  /\ (ltb (of_Z 2) (colors i) = true -> ltb (colors i) (of_Z 256) = true ->
        max_colors i = colors i)
  /\ (leb (of_Z 256) (colors i) = true -> max_colors i = of_Z 256)
  /\ (is_nan (startSec i) = false ->
        leb (startSec i) (of_Z 0) = true \/ ltb (of_Z 0) (startSec i) = true)
  /\ (is_nan (durationSec i) = false ->
        leb (durationSec i) (of_decimal 2 1) = true
        \/ ltb (of_decimal 2 1) (durationSec i) = true)
  /\ (is_nan (colors i) = false ->
        leb (colors i) (of_Z 2) = true
        \/ (ltb (of_Z 2) (colors i) = true /\ ltb (colors i) (of_Z 256) = true)
        \/ leb (of_Z 256) (colors i) = true)
  /\ (is_nan (startSec i) = true -> trim_start i = NaN)
  /\ (is_nan (durationSec i) = true -> trim_duration i = NaN)
  /\ (is_nan (colors i) = true -> max_colors i = NaN)
  /\ (forall inputName paletteName,
        flag_at 3 "-ss" (paletteArgs i inputName paletteName)
        = Some (toFixed (trim_start i))
        /\ flag_at 5 "-t" (paletteArgs i inputName paletteName)
           = Some (toFixed (trim_duration i))
        /\ flag_at 11 "-vf" (paletteArgs i inputName paletteName)
           = Some (scaleAndRate i ++ ",palettegen=max_colors="
                   ++ Number_toString (max_colors i) ++ ":stats_mode=full")).
Proof.
  repeat apply conj.
  - intros Hc. unfold max_colors.
    assert (Hm : is_nan (Math_min (of_Z 256) (colors i)) = false)
      by (now apply Math_min_not_nan).
    split.
    + now apply Math_max_lower.
    + destruct (Math_max_cases (of_Z 2) (Math_min (of_Z 256) (colors i)))
        as [H|[H|H]]; rewrite H.
      * pose proof (Math_max_not_nan _ _ (eq_refl : is_nan (of_Z 2) = false) Hm)
          as Hn. rewrite H in Hn. discriminate Hn.
      * reflexivity.
      * now apply Math_min_upper.
  - intros Hs. now apply Math_max_lower.
  - intros Hs. unfold trim_start. now rewrite Math_max_below.
  - intros Hd. now apply Math_max_lower.
  - intros Hd. unfold trim_duration. now rewrite Math_max_below.
  - intros Hf Hl. apply toFixed_two_decimals; trivial.
    now apply Math_max_not_negative.
  - intros Hf Hl. apply toFixed_two_decimals; trivial.
    now apply Math_max_not_negative.
  - reflexivity.
  - reflexivity.
  - reflexivity.
  - reflexivity.
  - intros Hs. apply Math_max_floor; [reflexivity | exact Hs].
  - intros Hs. now apply Math_max_above.
  - intros Hd. apply Math_max_floor; [reflexivity | exact Hd].
  - intros Hd. now apply Math_max_above.
  - intros Hc. unfold max_colors.
    rewrite (Math_min_below (of_Z 256) (colors i)).
    + apply Math_max_floor; [reflexivity | exact Hc].
    + apply (leb_ltb_trans _ (of_Z 2)); [exact Hc | reflexivity].
  - intros H2 H256. unfold max_colors.
    rewrite (Math_min_below _ _ H256). now apply Math_max_above.
  - intros Hc. unfold max_colors.
    rewrite (Math_min_cap (of_Z 256) (colors i)); [reflexivity | reflexivity | exact Hc].
  - intros Hs. now apply leb_or_ltb.
  - intros Hd. now apply leb_or_ltb.
  - intros Hc.
    destruct (leb_or_ltb (colors i) (of_Z 2) Hc eq_refl) as [H|H]; [now left|].
    destruct (leb_or_ltb (of_Z 256) (colors i) eq_refl Hc) as [H'|H'].
    + now right; right.
    + right; left. now split.
  - intros Hs. now apply Math_max_nan.
  - intros Hd. now apply Math_max_nan.
  - intros Hc. unfold max_colors.
    rewrite (Math_min_nan _ _ Hc). reflexivity.
  - intros inputName paletteName. repeat split; reflexivity.
Qed.

(** The theorem at colours 500, a start of -1 s and a duration of 0.05 s,
    which are brought to the bounds, and at 64 colours, a start of 7.5 s
    and a duration of 3 s, which are kept. *)
Lemma C4_inputs_are_floored_witness :
  let i := setColors (of_Z 500)
             (setStartSec (SFopp (of_Z 1))
                (setDurationSec (of_decimal 5 2) initial_inputs)) in
  let j := setColors (of_Z 64)
             (setStartSec (of_decimal 75 1)
                (setDurationSec (of_Z 3) initial_inputs)) in
  (leb (max_colors i) (of_Z 256) = true
   /\ toFixed (trim_start i) = "0.00"
   /\ toFixed (trim_duration i) = "0.20"
   /\ two_decimals (toFixed (trim_duration i)) = true
   /\ max_colors i = of_Z 256
   /\ trim_start i = of_Z 0
   /\ trim_duration i = of_decimal 2 1)
  /\ (max_colors j = of_Z 64
      /\ trim_start j = of_decimal 75 1
      /\ trim_duration j = of_Z 3
      /\ trimArgs j = ["-ss"; "7.50"; "-t"; "3.00"]).
Proof.
  intros i j.
  destruct (C4_inputs_are_floored i)
    as (Hc & _ & Hs & _ & Hd & _ & Ht & _ & _ & _ & _
        & Hs0 & _ & Hd0 & _ & _ & _ & Hc256 & _).
  destruct (C4_inputs_are_floored j)
    as (_ & _ & _ & _ & _ & _ & _ & _ & _ & _ & _
        & _ & Hs1 & _ & Hd1 & _ & Hc1 & _).
  split.
  - split; [exact (proj2 (Hc eq_refl))|].
    split; [exact (Hs eq_refl)|].
    split; [exact (Hd eq_refl)|].
    split; [exact (Ht eq_refl eq_refl)|].
    split; [exact (Hc256 eq_refl)|].
    split; [exact (Hs0 eq_refl)|].
    exact (Hd0 eq_refl).
  - split; [exact (Hc1 eq_refl eq_refl)|].
    split; [exact (Hs1 eq_refl)|].
    split; [exact (Hd1 eq_refl)|].
    reflexivity.
Defined.

End FilterGraph.

(* ===================================================================== *)
(** ** One conversion, in any environment *)
(* ===================================================================== *)

Arguments JS.Number_toString : simpl never.
Arguments JS.Number_toFixed : simpl never.
Arguments JS.Math_max : simpl never.
Arguments JS.Math_min : simpl never.
Arguments JS.of_Z : simpl never.
Arguments JS.of_decimal : simpl never.
Arguments SFdiv : simpl never.
Arguments inputName_of : simpl never.
Arguments paletteName_of : simpl never.
Arguments outputName_of : simpl never.
Arguments paletteArgs : simpl never.
Arguments renderArgs : simpl never.
Arguments object_url : simpl never.
Arguments CORE_BASE : simpl never.

Section Conversion.

Variable ES : Type.
Variable respond : forall c : Ext, ES -> (Err + Ext_ret c) * ES.
Variable clock : ES -> JS.number * ES.

(** One step of a run: the next reading of the clock or the next awaited
    call, resolved or rejected. *)
Ltac run_step :=
  unfold read_clock, settle, mint; cbn;
  match goal with
  | |- context [respond ?c ?e] =>
      destruct (respond c e) as [[?|?] ?] eqn:?; cbn
  | |- context [clock ?e] =>
      destruct (clock e) as [? ?] eqn:?; cbn
  end.

(** Every path of [generateGif] with a file, for both values of [loaded]
    and of [gifUrl]. *)
Ltac run_generateGif r :=
  unfold events_of, generateGif, convert, loadFFmpeg;
  destruct (loaded r); destruct (truthy (gifUrl r)); cbn;
  repeat run_step.

Ltac one_failure c Hin :=
  cbn in Hin;
  repeat (destruct Hin as [Hin|Hin]; [subst c|]); try contradiction.

(** The three artifacts are deleted once each, in the order input, palette,
    output, on the path where every call resolves; a job that fails at any
    call before the clean-up deletes nothing. *)
Lemma cleanup_on_success_only (w : World ES) (r : State) (f : File) :
  file (inputs r) = Some f ->
  (failures (events_of respond clock (generateGif r) w) = [] ->
   exists t1 t2 t3,
     clock_reads (events_of respond clock (generateGif r) w) = [t1; t2; t3]
     /\ deleted (events_of respond clock (generateGif r) w)
        = [inputName_of t1 f; paletteName_of t2; outputName_of t3])
  /\ (forall c, In c (failures (events_of respond clock (generateGif r) w)) ->
      is_delete c = false ->
      deleted (events_of respond clock (generateGif r) w) = []).
Proof.
  intros Hfile. unfold events_of, generateGif. rewrite Hfile.
  run_generateGif r;
    (split;
     [ intros Hf; try discriminate Hf; do 3 eexists; split; reflexivity
     | intros c Hin Hd; one_failure c Hin; try discriminate Hd; reflexivity ]).
Qed.


(** C9, amended: [generateGif] never throws; when an awaited call rejects,
    the error goes to the console and the status becomes the one message
    "Conversion failed. Try a shorter clip or lower preset.", the same for
    every call that can reject; without a file the status is "Choose a
    video file first.". *)
Theorem C9_failures_caught_not_classified (w : World ES) (r : State) :
  let res := run respond clock (generateGif r) (unlogged w) in
  fst res = Returned tt
  /\ (failures (log (snd res)) <> [] ->
      status (react (snd res)) = failed_status
      /\ generating (react (snd res)) = false
      /\ exists e, console (snd res) = (console w ++ [e])%list)
  /\ (file (inputs r) = None ->
      status (react (snd res)) = "Choose a video file first.").
Proof.
  unfold generateGif.
  destruct (file (inputs r)) as [f|].
  2:{ cbn. split; [reflexivity|]. split; [intros Hn; now elim Hn | reflexivity]. }
  run_generateGif r;
    (split; [reflexivity|]; split; [|discriminate]);
    intros Hf; try (now elim Hf);
    (split; [reflexivity|]; split; [reflexivity|]);
    eexists; reflexivity.
Qed.

(** C10, amended: a job that fails at any call before the clean-up leaves
    [gifUrl] and the object URLs as they were; an object URL is revoked or
    minted only after the output is read back. A rejection of
    [ffmpeg.deleteFile] comes after the new result is published. *)
Theorem C10_failure_before_cleanup_keeps_result
    (w : World ES) (r : State) (f : File) :
  file (inputs r) = Some f ->
  let res := run respond clock (generateGif r) (unlogged w) in
  (forall c, In c (failures (log (snd res))) -> is_delete c = false ->
     gifUrl (react (snd res)) = gifUrl (react w)
     /\ minted (snd res) = minted w /\ revoked (snd res) = revoked w)
  /\ ((minted (snd res) = minted w /\ revoked (snd res) = revoked w)
      \/ exists data, read_back (log (snd res)) = [data]).
Proof.
  intros Hfile. unfold generateGif. rewrite Hfile.
  run_generateGif r;
    (split;
     [ intros c Hin Hd; one_failure c Hin; try discriminate Hd;
       repeat split; reflexivity
     | first [ left; split; reflexivity | right; eexists; reflexivity ] ]).
Qed.

(** C5: the two [ffmpeg.exec] calls of a job get the same [-ss] and [-t]
    values, and their filters start with the same scaling and rate
    expression, which ends with [,setpts=PTS/<speed>] when [speed !== 1] and
    has no such clause when [speed === 1]. *)
Theorem C5_passes_share_trim_and_filter
    (w : World ES) (r : State) (f : File) (a1 a2 : list string) :
  file (inputs r) = Some f ->
  executed (events_of respond clock (generateGif r) w) = [a1; a2] ->
  let i := inputs r in
  let base := "fps=" ++ JS.Number_toString (fps i) ++ ",scale="
              ++ JS.Number_toString (width i) ++ ":-1:flags=lanczos" in
  exists shared,
    shared = (if JS.strict_eq (speed i) (JS.of_Z 1) then base
              else base ++ ",setpts=PTS/" ++ JS.Number_toString (speed i))
    /\ flag_at 11 "-vf" a1
       = Some (shared ++ ",palettegen=max_colors="
               ++ JS.Number_toString (max_colors i) ++ ":stats_mode=full")
    /\ flag_at 9 "-lavfi" a2
       = Some (shared ++ "[x];[x][1:v]paletteuse=dither="
               ++ dither_string (dither i) ++ ":diff_mode=rectangle")
    /\ flag_at 3 "-ss" a1 = Some (toFixed (trim_start i))
    /\ flag_at 3 "-ss" a2 = Some (toFixed (trim_start i))
    /\ flag_at 5 "-t" a1 = Some (toFixed (trim_duration i))
    /\ flag_at 5 "-t" a2 = Some (toFixed (trim_duration i)).
Proof.
  intros Hfile. unfold events_of, generateGif. rewrite Hfile.
  assert (Hs : scaleAndRate (inputs r)
               = if JS.strict_eq (speed (inputs r)) (JS.of_Z 1)
                 then "fps=" ++ JS.Number_toString (fps (inputs r)) ++ ",scale="
                      ++ JS.Number_toString (width (inputs r))
                      ++ ":-1:flags=lanczos"
                 else ("fps=" ++ JS.Number_toString (fps (inputs r)) ++ ",scale="
                       ++ JS.Number_toString (width (inputs r))
                       ++ ":-1:flags=lanczos")
                      ++ ",setpts=PTS/" ++ JS.Number_toString (speed (inputs r))).
  { unfold scaleAndRate, speedFilter.
    destruct (JS.strict_eq (speed (inputs r)) (JS.of_Z 1)).
    - reflexivity.
    - now rewrite !FixedFacts.append_assoc. }
  run_generateGif r; intros He; try discriminate He;
    injection He as <- <-;
    exists (scaleAndRate (inputs r)); (split; [exact Hs|]);
    repeat split; reflexivity.
Qed.

End Conversion.

(* ===================================================================== *)
(** ** The object URL of the result over a session *)
(* ===================================================================== *)

Section Handles.

Variable ES : Type.
Variable respond : forall c : Ext, ES -> (Err + Ext_ret c) * ES.
Variable clock : ES -> JS.number * ES.

Ltac run_step :=
  unfold read_clock, settle, mint; cbn;
  match goal with
  | |- context [respond ?c ?e] =>
      destruct (respond c e) as [[?|?] ?] eqn:?; cbn
  | |- context [clock ?e] =>
      destruct (clock e) as [? ?] eqn:?; cbn
  end.

Lemma dec_of_nat_inj (n m : nat) :
  JS.dec (Z.of_nat n) = JS.dec (Z.of_nat m) -> n = m.
Proof.
  unfold JS.dec. intros H.
  assert (Hnil : forall k, N.to_uint k <> Decimal.Nil).
  { intros [|p]; [discriminate | apply DecimalPos.Unsigned.to_uint_nonnil]. }
  apply (f_equal NilZero.uint_of_string) in H.
  rewrite !NilZero.usu in H by apply Hnil.
  injection H as H. apply DecimalN.Unsigned.to_uint_inj in H.
  apply (f_equal N.to_nat) in H. rewrite !Z_N_nat, !Nat2Z.id in H. exact H.
Qed.

Lemma object_url_inj (n m : nat) : object_url n = object_url m -> n = m.
Proof.
  unfold object_url. cbn. intros H. injection H as H.
  now apply dec_of_nat_inj.
Qed.

Lemma truthy_object_url (n : nat) :
  truthy (Some (object_url n)) = Some (object_url n).
Proof. reflexivity. Qed.

(** What a run of [generateGif] does to the object URLs: nothing, or one
    revocation of the [gifUrl] of its render and one new URL. *)
Lemma generateGif_handles (w : World ES) (r : State) :
  let w' := snd (run respond clock (generateGif r) w) in
  (minted w' = minted w /\ revoked w' = revoked w
   /\ gifUrl (react w') = gifUrl (react w))
  \/ (minted w' = (minted w ++ [object_url (List.length (minted w))])%list
      /\ revoked w' = revoke_previous (gifUrl r) (revoked w)
      /\ gifUrl (react w')
         = Some (object_url (List.length (minted w)))).
Proof.
  unfold generateGif, convert, loadFFmpeg, revoke_previous.
  destruct (file (inputs r)) as [f|]; [|left; repeat split; reflexivity].
  destruct (loaded r); destruct (truthy (gifUrl r)); cbn;
    repeat run_step;
    first [ left; repeat split; reflexivity
          | right; repeat split; reflexivity ].
Qed.

Lemma loadFFmpeg_handles (w : World ES) (r : State) :
  let w' := snd (run respond clock (loadFFmpeg r) w) in
  minted w' = minted w /\ revoked w' = revoked w
  /\ gifUrl (react w') = gifUrl (react w).
Proof.
  unfold loadFFmpeg. destruct (loaded r); cbn;
    repeat run_step; repeat split; reflexivity.
Qed.

Lemma handles_ok_frame (w w' : World ES) :
  minted w' = minted w -> revoked w' = revoked w ->
  gifUrl (react w') = gifUrl (react w) ->
  handles_ok w -> handles_ok w'.
Proof. unfold handles_ok. intros -> -> ->. trivial. Qed.

Lemma handles_ok_publish (w w' : World ES) :
  minted w' = (minted w ++ [object_url (List.length (minted w))])%list ->
  revoked w' = revoke_previous (gifUrl (react w)) (revoked w) ->
  gifUrl (react w') = Some (object_url (List.length (minted w))) ->
  handles_ok w -> handles_ok w'.
Proof.
  unfold handles_ok. intros Hm Hr Hg (Im & Ig & Ir).
  rewrite Hm, Hr, Hg, length_app. simpl List.length.
  replace (List.length (minted w) + 1)%nat
    with (S (List.length (minted w))) by lia.
  split; [|split].
  - rewrite seq_S, map_app, <- Im. reflexivity.
  - rewrite map_app. cbn [map]. now rewrite last_last.
  - intros u. rewrite Ig. unfold revoke_previous.
    destruct (List.length (minted w)) as [|k] eqn:Hlen.
    + destruct (minted w); [|discriminate Hlen]. simpl.
      rewrite Ir. simpl. split; intros (i & Hi & _); lia.
    + rewrite Im, seq_S, map_app, map_app. cbn [map].
      rewrite last_last. simpl Nat.add.
      rewrite truthy_object_url. simpl In. rewrite Ir. split.
      * intros [<-|(i & Hi & ->)]; [exists k | exists i]; split; trivial; lia.
      * intros (i & Hi & ->).
        destruct (Nat.eq_dec i k) as [->|Hne]; [now left|].
        right. exists i. split; [lia | reflexivity].
Qed.

Lemma gesture_handles_ok (g : Gesture) (w : World ES) :
  handles_ok w -> handles_ok (gesture respond clock g w).
Proof.
  intros H. destruct g as [f| |]; simpl.
  - revert H. apply handles_ok_frame; reflexivity.
  - destruct (create_enabled (react w)); [|assumption].
    destruct (generateGif_handles w (react w)) as [(Hm & Hr & Hg)|(Hm & Hr & Hg)].
    + now apply (handles_ok_frame w).
    + now apply (handles_ok_publish w).
  - destruct (preload_enabled (react w)); [|assumption].
    destruct (loadFFmpeg_handles w (react w)) as (Hm & Hr & Hg).
    now apply (handles_ok_frame w).
Qed.

Lemma session_handles_ok (gs : list Gesture) (w : World ES) :
  handles_ok w -> handles_ok (session respond clock gs w).
Proof.
  revert w. induction gs as [|g gs IH]; intros w H; simpl; [assumption|].
  apply IH. now apply gesture_handles_ok.
Qed.

Lemma new_world_handles_ok (s : State) (e : ES) :
  handles_ok (new_world (with_gifUrl None s) e).
Proof.
  unfold handles_ok. simpl. repeat split; trivial.
  - intros [].
  - intros (i & Hi & _). lia.
Qed.

(** With the URLs in order, only the last one is live. *)
Lemma live_is_last (w : World ES) (n : nat) :
  handles_ok w -> List.length (minted w) = S n ->
  live w = [object_url n].
Proof.
  intros (Im & _ & Ir) Hlen. unfold live.
  rewrite Im, Hlen, seq_S, map_app, filter_app. cbn [map filter Nat.add].
  assert (Hlast : existsb (String.eqb (object_url n)) (revoked w) = false).
  { destruct (existsb _ _) eqn:E; [|reflexivity].
    apply existsb_exists in E. destruct E as (u & Hu & Heq).
    apply String.eqb_eq in Heq. subst u.
    apply Ir in Hu. destruct Hu as (i & Hi & Hu).
    apply object_url_inj in Hu. lia. }
  rewrite Hlast. cbn [negb].
  assert (Hnone : forall l, (forall i, In i l -> (i < n)%nat) ->
            filter (fun u => negb (existsb (String.eqb u) (revoked w)))
                   (map object_url l) = []).
  { induction l as [|i l IH]; intros Hl; cbn [map filter]; [reflexivity|].
    assert (Hi : existsb (String.eqb (object_url i)) (revoked w) = true).
    { apply existsb_exists. exists (object_url i). split.
      - apply Ir. exists i. split; [|reflexivity].
        specialize (Hl i (or_introl eq_refl)). lia.
      - apply String.eqb_refl. }
    rewrite Hi. cbn [negb]. apply IH. intros j Hj. apply Hl. now right. }
  rewrite Hnone; [reflexivity|].
  intros i Hi. apply in_seq in Hi. lia.
Qed.

(** C6: in a session of edits and clicks, each handler run to its end
    before the next gesture, once [N >= 1] results have been published
    exactly one object URL is live, the one [gifUrl] holds, and the [N - 1]
    URLs published before it are revoked. *)
Theorem C6_one_live_handle (s : State) (e : ES) (gs : list Gesture) :
  let w := session respond clock gs (new_world (with_gifUrl None s) e) in
  let N := List.length (minted w) in
  (0 < N)%nat ->
  live w = [object_url (N - 1)]
  /\ gifUrl (react w) = Some (object_url (N - 1))
  /\ minted w = map object_url (seq 0 N)
  /\ forall i, (i < N - 1)%nat ->
       In (object_url i) (revoked w) /\ ~ In (object_url i) (live w).
Proof.
  intros w N HN.
  assert (Hok : handles_ok w)
    by (apply session_handles_ok, new_world_handles_ok).
  destruct N as [|n] eqn:HNeq; [lia|].
  replace (S n - 1)%nat with n by lia.
  assert (Hlive : live w = [object_url n]) by (now apply live_is_last).
  destruct Hok as (Im & Ig & Ir).
  split; [exact Hlive|]. split; [|split].
  - rewrite Ig, Im. fold N. rewrite HNeq, seq_S, map_app, map_app.
    cbn [map]. now rewrite last_last.
  - rewrite Im at 1. fold N. now rewrite HNeq.
  - intros i Hi. split.
    + apply Ir. exists i. fold N. rewrite HNeq. split; [lia | reflexivity].
    + rewrite Hlive. intros [Heq|[]]. apply object_url_inj in Heq. lia.
Qed.

End Handles.

(* ===================================================================== *)
(** ** Handlers that overlap *)
(* ===================================================================== *)

Section Overlap.

Variable ES : Type.
Variable respond : forall c : Ext, ES -> (Err + Ext_ret c) * ES.
Variable clock : ES -> JS.number * ES.

(** The two ways of running agree: a run is an advance to the first
    awaited call, that call settled, and the run of what follows. *)
Lemma run_advance (p : Prog unit) (w : World ES) :
  run respond clock p w
  = match advance clock p w with
    | (Finished o, w') => (o, w')
    | (Waiting c k, w') =>
        let (r, w'') := settle respond c w' in run respond clock (k r) w''
    end.
Proof.
  revert w. induction p as [r|e|a k IH|k IH|b k IH|c k IH]; intros w; simpl;
    try reflexivity.
  - apply IH.
  - destruct (read_clock clock w) as [t w']. apply IH.
  - destruct (mint b w) as [u w']. apply IH.
Qed.

Lemma in_flight_start (p : Prog unit) (pg : Page ES) :
  in_flight (start clock p pg)
  = (in_flight pg
     ++ match fst (advance clock p (world pg)) with
        | Waiting c _ => [c]
        | Finished _ => []
        end)%list.
Proof.
  unfold in_flight, start.
  destruct (advance clock p (world pg)) as [t w]. simpl.
  rewrite flat_map_app. simpl. now rewrite app_nil_r.
Qed.

Lemma issued_start (p : Prog unit) (pg : Page ES) :
  issued (start clock p pg)
  = issue (List.length (tasks pg)) (fst (advance clock p (world pg)))
      (issued pg).
Proof.
  unfold start. now destruct (advance clock p (world pg)).
Qed.

(** C7, amended: [loadFFmpeg] in a render where [loaded] is [true] returns
    at once: no listener, no call, no change of state.  In a render where
    [loaded] is [false] it registers a listener and asks for the core URL,
    whatever calls are in flight, and calls [ffmpeg.load] once its two URLs
    are there: a load in flight is not joined. *)
Theorem C7_reload_is_a_no_op_only_when_loaded (pg : Page ES) (r : State) :
  (loaded r = true ->
   run respond clock (loadFFmpeg r) (world pg)
   = (Returned tt, record (did (invoke fn_loadFFmpeg)) (world pg))
   /\ in_flight (start clock (loadFFmpeg r) pg) = in_flight pg
   /\ issued (start clock (loadFFmpeg r) pg) = issued pg)
  /\ (loaded r = false ->
      in_flight (start clock (loadFFmpeg r) pg)
      = (in_flight pg
         ++ [toBlobURL (CORE_BASE ++ "/ffmpeg-core.js") "text/javascript"])%list
      /\ listeners (world (start clock (loadFFmpeg r) pg))
         = S (listeners (world pg))
      /\ (failures (events_of respond clock (loadFFmpeg r) (world pg)) = [] ->
          exists coreURL wasmURL,
            calls (events_of respond clock (loadFFmpeg r) (world pg))
            = [toBlobURL (CORE_BASE ++ "/ffmpeg-core.js") "text/javascript";
               toBlobURL (CORE_BASE ++ "/ffmpeg-core.wasm") "application/wasm";
               ffmpeg_load coreURL wasmURL])).
Proof.
  split; intros Hl.
  - rewrite in_flight_start, issued_start.
    unfold loadFFmpeg. rewrite Hl. cbn.
    repeat split; trivial. apply app_nil_r.
  - rewrite in_flight_start. unfold start, events_of, loadFFmpeg.
    rewrite Hl. cbn. repeat split.
    repeat (unfold settle; cbn;
            match goal with
            | |- context [respond ?c ?e] =>
                destruct (respond c e) as [[?|?] ?] eqn:?; cbn
            end);
      intros Hf; try discriminate Hf.
    do 2 eexists. reflexivity.
Qed.

(** C8, amended: a click on "Create GIF" while [generating] is [true] does
    nothing, the button being disabled; [generateGif] itself checks nothing:
    with a file it makes its first call at once, whatever calls are in
    flight, so a run started before [generating] is set is neither rejected
    nor queued. *)
Theorem C8_only_the_button_guards (pg : Page ES) (r : State) (f : File) :
  (generating (react (world pg)) = true ->
   step respond clock (User CreateGIF) pg = pg)
  /\ (file (inputs r) = Some f ->
      let first := if loaded r then fetchFile f
                   else toBlobURL (CORE_BASE ++ "/ffmpeg-core.js")
                          "text/javascript" in
      in_flight (start clock (generateGif r) pg)
      = (in_flight pg ++ [first])%list
      /\ issued (start clock (generateGif r) pg)
         = (issued pg ++ [(List.length (tasks pg), first)])%list).
Proof.
  split.
  - intros Hg. unfold step, create_enabled. rewrite Hg.
    now destruct (file (inputs (react (world pg)))).
  - intros Hfile. rewrite in_flight_start, issued_start.
    unfold generateGif, convert, loadFFmpeg. rewrite Hfile.
    destruct (loaded r); cbn.
    + unfold read_clock. cbn.
      repeat match goal with
             | |- context [clock ?e] =>
                 destruct (clock e) as [? ?] eqn:?; cbn
             end.
      split; reflexivity.
    + split; reflexivity.
Qed.

End Overlap.

(* ===================================================================== *)
(** ** The scripted runs *)
(* ===================================================================== *)

Module Examples.
Import Script Runs.

(** C1, on the code: the palette pass of a job rejects after the input is
    written under its name; the job ends with the failure status and
    [ffmpeg.deleteFile] is called on none of the three artifacts. *)
Theorem C1_failed_job_deletes_nothing :
  let l := log (snd palette_failure) in
  written l = ["input-1700000000000-clip.mp4"]
  /\ failures l
     = [ffmpeg_exec
          (paletteArgs (inputs chosen) "input-1700000000000-clip.mp4"
             "palette-1700000000000.png")]
  /\ status (react (snd palette_failure)) = failed_status
  /\ deleted l = []
  /\ deleted (log (snd (job None (Uint8Array gif_bytes))))
     = ["input-1700000000000-clip.mp4"; "palette-1700000000000.png";
        "output-1700000000000.gif"].
Proof. vm_compute. repeat split; reflexivity. Qed.


(** C6, as stated, fails: two clicks on "Create GIF" while the engine
    loads give two jobs that both close over [gifUrl = null]; each publishes
    its result without revoking anything, and two object URLs are live. *)
Lemma C6_counterexample :
  outcomes two_jobs = [Some (Returned tt); Some (Returned tt)]
  /\ minted (world two_jobs) = [object_url 0; object_url 1]
  /\ revoked (world two_jobs) = []
  /\ live (world two_jobs) = [object_url 0; object_url 1].
Proof. vm_compute. repeat split; reflexivity. Qed.

(** C7, as stated, fails: after a second click on "Preload ffmpeg" during
    the first load, two listeners are registered and two calls of
    [ffmpeg.load] are in flight at once. *)
Lemma C7_counterexample :
  in_flight two_loads
  = [ffmpeg_load ("blob:" ++ CORE_BASE ++ "/ffmpeg-core.js")
       ("blob:" ++ CORE_BASE ++ "/ffmpeg-core.wasm");
     ffmpeg_load ("blob:" ++ CORE_BASE ++ "/ffmpeg-core.js")
       ("blob:" ++ CORE_BASE ++ "/ffmpeg-core.wasm")]
  /\ listeners (world two_loads) = 2%nat
  /\ List.length (filter (fun x => match snd x with
                                   | ffmpeg_load _ _ => true
                                   | _ => false
                                   end) (issued two_loads)) = 2%nat.
Proof. vm_compute. repeat split; reflexivity. Qed.

(** C8, as stated, fails: the second of two clicks on "Create GIF" made
    while the engine loads is not rejected (both jobs return, the console is
    empty) and is not queued: the calls of the two jobs alternate. *)
Lemma C8_counterexample :
  outcomes two_jobs = [Some (Returned tt); Some (Returned tt)]
  /\ console (world two_jobs) = []
  /\ serialized (issued two_jobs) = false
  /\ map fst (issued two_jobs)
     = [0; 1; 0; 0; 0; 1; 1; 1; 0; 1; 0; 1; 0; 1; 0; 1; 0; 1; 0; 1; 0; 1]%nat.
Proof. vm_compute. repeat split; reflexivity. Qed.

(** C9, as stated, fails: a job whose palette pass rejects and a job whose
    render pass rejects leave the caller with the same return, the same
    state and the same console, so nothing tells [palette] from [render]. *)
Lemma C9_counterexample :
  is_exec (hd (fetchFile clip) (failures (log (snd palette_failure)))) = true
  /\ is_exec (hd (fetchFile clip) (failures (log (snd render_failure)))) = true
  /\ executed (log (snd palette_failure))
     = [paletteArgs (inputs chosen) "input-1700000000000-clip.mp4"
          "palette-1700000000000.png"]
  /\ List.length (executed (log (snd render_failure))) = 2%nat
  /\ report palette_failure = report render_failure
  /\ ~ exists classify : Report -> ErrorClass,
         classify (report palette_failure) = TranscodeError palette
         /\ classify (report render_failure) = TranscodeError render.
Proof.
  assert (H : report palette_failure = report render_failure)
    by (vm_compute; reflexivity).
  repeat split; try (vm_compute; reflexivity).
  intros (classify & H1 & H2). rewrite H in H1. congruence.
Qed.

(** C10, as stated, fails: in the second conversion the first
    [ffmpeg.deleteFile] rejects; the job ends with the failure status, yet
    the URL of the first result is revoked and [gifUrl] holds a new one. *)
Lemma C10_counterexample :
  gifUrl (react after_first) = Some (object_url 0)
  /\ live after_first = [object_url 0]
  /\ status (react after_second) = failed_status
  /\ gifUrl (react after_second) = Some (object_url 1)
  /\ ~ In (object_url 0) (live after_second)
  /\ In (object_url 0) (revoked after_second).
Proof.
  vm_compute. repeat split; try reflexivity.
  - intros [H|[]]. discriminate H.
  - now left.
Qed.

(* --------------------------------------------------------------------- *)
(** *** The theorems at the scripted runs *)


(** C5 at the clip played at twice the speed. *)
Lemma C5_passes_share_trim_and_filter_witness :
  let a1 := paletteArgs (inputs doubled) "input-1700000000000-clip.mp4"
              "palette-1700000000000.png" in
  let a2 := renderArgs (inputs doubled) "input-1700000000000-clip.mp4"
              "palette-1700000000000.png" "output-1700000000000.gif" in
  file (inputs doubled) = Some clip
  /\ executed (events_of all_resolve clock (generateGif doubled) first_world)
     = [a1; a2]
  /\ exists shared,
       shared = "fps=15,scale=960:-1:flags=lanczos,setpts=PTS/2"
       /\ flag_at 11 "-vf" a1
          = Some (shared ++ ",palettegen=max_colors=256:stats_mode=full")
       /\ flag_at 9 "-lavfi" a2
          = Some (shared
                  ++ "[x];[x][1:v]paletteuse=dither=sierra2_4a:diff_mode=rectangle")
       /\ flag_at 3 "-ss" a1 = flag_at 3 "-ss" a2
       /\ flag_at 5 "-t" a1 = flag_at 5 "-t" a2.
Proof.
  intros a1 a2.
  assert (H1 : file (inputs doubled) = Some clip) by reflexivity.
  assert (H2 : executed (events_of all_resolve clock (generateGif doubled)
                           first_world) = [a1; a2])
    by (vm_compute; reflexivity).
  split; [exact H1|]. split; [exact H2|].
  pose proof (C5_passes_share_trim_and_filter nat all_resolve clock
                first_world doubled clip a1 a2 H1 H2) as H0.
  destruct H0 as (shared & Hs & Hv & Hl & Hs1 & Hs2 & Ht1 & Ht2).
  exists shared. split; [rewrite Hs; vm_compute; reflexivity|].
  split; [rewrite Hv, Hs; vm_compute; reflexivity|].
  split; [rewrite Hl, Hs; vm_compute; reflexivity|].
  split; [now rewrite Hs1, Hs2 | now rewrite Ht1, Ht2].
Defined.

(** C6 at three conversions one after the other. *)
Lemma C6_one_live_handle_witness :
  let w := session all_resolve clock three_conversions
             (new_world (with_gifUrl None chosen) 0%nat) in
  (0 < List.length (minted w))%nat
  /\ live w = [object_url (List.length (minted w) - 1)]
  /\ List.length (revoked w) = 2%nat.
Proof.
  intros w.
  assert (H : (0 < List.length (minted w))%nat) by (vm_compute; lia).
  split; [exact H|]. split; [|vm_compute; reflexivity].
  exact (proj1 (C6_one_live_handle nat all_resolve clock chosen 0%nat
                  three_conversions H)).
Defined.

(** C7 at a render with the engine loaded and at the first render. *)
Lemma C7_reload_is_a_no_op_only_when_loaded_witness :
  let pg := new_page (new_world initial_state 0%nat) in
  in_flight (start clock (loadFFmpeg (with_loaded true initial_state)) pg) = []
  /\ in_flight (start clock (loadFFmpeg initial_state) two_loads)
     = (in_flight two_loads
        ++ [toBlobURL (CORE_BASE ++ "/ffmpeg-core.js") "text/javascript"])%list.
Proof.
  intros pg. split.
  - pose proof (proj1 (C7_reload_is_a_no_op_only_when_loaded nat all_resolve
                         clock pg (with_loaded true initial_state)) eq_refl)
      as H0.
    destruct H0 as (_ & H & _). exact H.
  - pose proof (proj2 (C7_reload_is_a_no_op_only_when_loaded nat all_resolve
                         clock two_loads initial_state) eq_refl)
      as H0.
    destruct H0 as (H & _). exact H.
Defined.

(** C8 at the page where a job waits for the engine. *)
Lemma C8_only_the_button_guards_witness :
  let pg := steps all_resolve clock [User CreateGIF]
              (new_page first_world) in
  in_flight pg = [toBlobURL (CORE_BASE ++ "/ffmpeg-core.js") "text/javascript"]
  /\ generating (react (world pg)) = false
  /\ in_flight (start clock (generateGif chosen) pg)
     = (in_flight pg
        ++ [toBlobURL (CORE_BASE ++ "/ffmpeg-core.js") "text/javascript"])%list.
Proof.
  intros pg. split; [reflexivity|]. split; [reflexivity|].
  pose proof (proj2 (C8_only_the_button_guards nat all_resolve clock pg chosen
                       clip) eq_refl) as H0.
  destruct H0 as (H & _). exact H.
Defined.

(** C9 at the job whose palette pass rejects. *)
Lemma C9_failures_caught_not_classified_witness :
  let res := run (respond (Some 5%nat) (Uint8Array gif_bytes)) clock
               (generateGif chosen) (unlogged first_world) in
  failures (log (snd res)) <> []
  /\ fst res = Returned tt
  /\ status (react (snd res)) = failed_status.
Proof.
  cbv zeta.
  assert (Hf : failures
                 (log (snd (run (respond (Some 5%nat) (Uint8Array gif_bytes))
                              clock (generateGif chosen)
                              (unlogged first_world)))) <> [])
    by (vm_compute; discriminate).
  pose proof (C9_failures_caught_not_classified nat
                (respond (Some 5%nat) (Uint8Array gif_bytes)) clock
                first_world chosen) as H0.
  cbv zeta in H0. destruct H0 as (Hr & Hs & _).
  split; [exact Hf|]. split; [exact Hr|].
  exact (proj1 (Hs Hf)).
Defined.

(** C10 at a second conversion whose palette pass rejects. *)
Lemma C10_failure_before_cleanup_keeps_result_witness :
  let res := run (respond (Some 13%nat) (Uint8Array gif_bytes)) clock
               (generateGif (react after_first)) (unlogged after_first) in
  file (inputs (react after_first)) = Some clip
  /\ failures (log (snd res))
     = [ffmpeg_exec
          (paletteArgs (inputs chosen) "input-1700000000000-clip.mp4"
             "palette-1700000000000.png")]
  /\ gifUrl (react (snd res)) = gifUrl (react after_first)
  /\ minted (snd res) = minted after_first
  /\ revoked (snd res) = revoked after_first.
Proof.
  cbv zeta.
  assert (H1 : file (inputs (react after_first)) = Some clip)
    by (vm_compute; reflexivity).
  assert (H2 : failures
                 (log (snd (run (respond (Some 13%nat) (Uint8Array gif_bytes))
                              clock (generateGif (react after_first))
                              (unlogged after_first))))
               = [ffmpeg_exec
                    (paletteArgs (inputs chosen) "input-1700000000000-clip.mp4"
                       "palette-1700000000000.png")])
    by (vm_compute; reflexivity).
  split; [exact H1|]. split; [exact H2|].
  pose proof (C10_failure_before_cleanup_keeps_result nat
                (respond (Some 13%nat) (Uint8Array gif_bytes)) clock
                after_first (react after_first) clip H1) as H0.
  cbv zeta in H0. destruct H0 as (H0 & _).
  apply (H0 (ffmpeg_exec
               (paletteArgs (inputs chosen) "input-1700000000000-clip.mp4"
                  "palette-1700000000000.png"))).
  - rewrite H2. now left.
  - reflexivity.
Defined.

End Examples.

(* ===================================================================== *)
(** ** The name of the download *)
(* ===================================================================== *)

Module GifName.

Lemma no_dot_app (a b : string) : no_dot (a ++ b) = no_dot a && no_dot b.
Proof.
  induction a as [|c a IH]; simpl; [reflexivity|].
  now rewrite IH, andb_assoc.
Qed.

Lemma no_dot_with_dot (a b : string) : no_dot (a ++ "." ++ b) = false.
Proof. rewrite no_dot_app. simpl. apply andb_false_r. Qed.

(** Before the last dot nothing matches. *)
Lemma strip_extension_split (base ext : string) :
  ext <> "" -> no_dot ext = true ->
  strip_extension (base ++ "." ++ ext) = base.
Proof.
  intros Hne Hnd. induction base as [|c base IH].
  - simpl. rewrite Hnd.
    destruct (String.eqb_spec ext ""); [contradiction | reflexivity].
  - change ((String c base) ++ "." ++ ext)
      with (String c (base ++ "." ++ ext)).
    cbn [strip_extension extension_here].
    rewrite no_dot_with_dot, andb_false_r. now rewrite IH.
Qed.

Lemma strip_extension_no_dot (s : string) :
  no_dot s = true -> strip_extension s = s.
Proof.
  induction s as [|c s IH]; [reflexivity|].
  cbn [strip_extension extension_here no_dot]. intros H.
  apply andb_prop in H. destruct H as [Hc Hs].
  apply negb_true_iff in Hc. rewrite Hc. simpl. now rewrite IH.
Qed.

Lemma strip_extension_trailing_dot (s : string) :
  strip_extension (s ++ ".") = s ++ ".".
Proof.
  induction s as [|c s IH]; [reflexivity|].
  change ((String c s) ++ ".") with (String c (s ++ ".")).
  cbn [strip_extension extension_here].
  replace (no_dot (s ++ ".")) with false.
  2:{ symmetry. rewrite no_dot_app. simpl. apply andb_false_r. }
  rewrite andb_false_r. now rewrite IH.
Qed.

(** X1: the download is named after the chosen file with its last
    extension replaced by [.gif]: [base.ext] gives [base.gif] whatever dots
    [base] has; a name without a dot, or one that ends with a dot, only
    gets [.gif] appended; without a file the name is [output.gif]; and a
    file that already has the name of a download keeps it. *)
Theorem X1_gifName (content : bytes) (base ext s : string) :
  (ext <> "" -> no_dot ext = true ->
   gifName (Some {| name := base ++ "." ++ ext; content := content |})
   = base ++ ".gif")
  /\ (no_dot s = true ->
      gifName (Some {| name := s; content := content |}) = s ++ ".gif")
  /\ gifName (Some {| name := s ++ "."; content := content |})
     = (s ++ ".") ++ ".gif"
  /\ gifName None = "output.gif"
  /\ gifName (Some {| name := gifName (Some {| name := s; content := content |});
                      content := content |})
     = gifName (Some {| name := s; content := content |}).
Proof.
  unfold gifName. cbn [name]. repeat apply conj.
  - intros Hne Hnd. now rewrite strip_extension_split.
  - intros Hnd. now rewrite strip_extension_no_dot.
  - now rewrite strip_extension_trailing_dot.
  - reflexivity.
  - change (strip_extension s ++ ".gif")
      with (strip_extension s ++ "." ++ "gif").
    rewrite (strip_extension_split (strip_extension s) "gif");
      [reflexivity | discriminate | reflexivity].
Qed.

(** X1 at [my.holiday.clip.mp4], [README] and [.bashrc]. *)
Lemma X1_gifName_witness :
  gifName (Some {| name := "my.holiday.clip.mp4"; content := [] |})
  = "my.holiday.clip.gif"
  /\ gifName (Some {| name := "README"; content := [] |}) = "README.gif"
  /\ gifName (Some {| name := ".bashrc"; content := [] |}) = ".gif".
Proof.
  split; [|split].
  - exact (proj1 (X1_gifName [] "my.holiday.clip" "mp4" "")
             ltac:(discriminate) eq_refl).
  - exact (proj1 (proj2 (X1_gifName [] "" "" "README")) eq_refl).
  - exact (proj1 (X1_gifName [] "" "bashrc" "") ltac:(discriminate) eq_refl).
Defined.

End GifName.

(* ===================================================================== *)
(** ** The progress of the engine *)
(* ===================================================================== *)

Section Progress.

Variable ES : Type.
Variable respond : forall c : Ext, ES -> (Err + Ext_ret c) * ES.
Variable clock : ES -> JS.number * ES.

Lemma clamp_in_unit (x : JS.number) :
  JS.is_nan x = false ->
  in_unit (JS.Math_max (JS.of_Z 0) (JS.Math_min (JS.of_Z 1) x)) = true.
Proof.
  intros Hx. unfold in_unit.
  assert (Hm : JS.is_nan (JS.Math_min (JS.of_Z 1) x) = false)
    by (now apply JSFacts.Math_min_not_nan).
  rewrite JSFacts.Math_max_lower by trivial. simpl.
  destruct (JSFacts.Math_max_cases (JS.of_Z 0) (JS.Math_min (JS.of_Z 1) x))
    as [H|[H|H]]; rewrite H.
  - pose proof (JSFacts.Math_max_not_nan _ _
                  (eq_refl : JS.is_nan (JS.of_Z 0) = false) Hm) as Hn.
    rewrite H in Hn. discriminate Hn.
  - reflexivity.
  - now apply JSFacts.Math_min_upper.
Qed.

(** X2: whatever the engine reports, [NaN] and the infinities included,
    the progress handler leaves a progress within [[0, 1]]: [NaN] and zero
    give 0, a report above 1 gives 1, and a report within [[0, 1]] is kept
    as it is. *)
Theorem X2_on_progress_clamps (p : JS.number) (w : World ES) :
  let q := progress (react (snd (run respond clock (on_progress p) w))) in
  in_unit q = true
  /\ (JS.is_nan p = true -> q = JS.of_Z 0)
  /\ (JS.ltb (JS.of_Z 1) p = true -> q = JS.of_Z 1)
  /\ (JS.ltb (JS.of_Z 0) p = true -> JS.ltb p (JS.of_Z 1) = true -> q = p).
Proof.
  cbn. repeat apply conj.
  - destruct p as [s|s| |s m e]; try reflexivity;
      apply clamp_in_unit; reflexivity.
  - destruct p; try discriminate. reflexivity.
  - intros H1.
    assert (Hp : match p with S754_nan | S754_zero _ => JS.of_Z 0 | _ => p end = p).
    { destruct p as [s|s| |s m e]; try reflexivity; discriminate H1. }
    rewrite Hp.
    assert (Hmin : JS.Math_min (JS.of_Z 1) p = JS.of_Z 1).
    { unfold JS.Math_min. destruct (JSFacts.ltb_not_nan _ _ H1) as [_ Hn].
      rewrite Hn. cbn [JS.is_nan orb]. rewrite (JSFacts.ltb_asym _ _ H1).
      destruct p as [[]| | |]; try reflexivity; discriminate H1. }
    rewrite Hmin. reflexivity.
  - intros H0 H1.
    assert (Hp : match p with S754_nan | S754_zero _ => JS.of_Z 0 | _ => p end = p).
    { destruct p as [s|s| |s m e]; try reflexivity; try discriminate H1.
      try (destruct s; discriminate H0). }
    rewrite Hp.
    assert (Hmin : JS.Math_min (JS.of_Z 1) p = p).
    { unfold JS.Math_min. destruct (JSFacts.ltb_not_nan _ _ H1) as [Hn _].
      rewrite Hn. cbn [JS.is_nan orb]. rewrite H1.
      destruct p as [[]| | |]; try reflexivity; discriminate H0. }
    rewrite Hmin. unfold JS.Math_max.
    destruct (JSFacts.ltb_not_nan _ _ H1) as [Hn _]. rewrite Hn.
    cbn [JS.is_nan orb JS.is_neg_zero andb]. rewrite andb_false_r.
    now rewrite H0.
Qed.

End Progress.

(* ===================================================================== *)
(** ** More on one conversion *)
(* ===================================================================== *)

Section Job.

Variable ES : Type.
Variable respond : forall c : Ext, ES -> (Err + Ext_ret c) * ES.
Variable clock : ES -> JS.number * ES.

Ltac run_step :=
  unfold read_clock, settle, mint; cbn;
  match goal with
  | |- context [respond ?c ?e] =>
      destruct (respond c e) as [[?|?] ?] eqn:?; cbn
  | |- context [clock ?e] =>
      destruct (clock e) as [? ?] eqn:?; cbn
  end.

Ltac run_generateGif r :=
  unfold events_of, generateGif, convert, loadFFmpeg;
  destruct (loaded r) eqn:?; destruct (truthy (gifUrl r)); cbn;
  repeat run_step.

(** The same with the exit code of a pass replaced. *)
Ltac run_both :=
  repeat (unfold with_exit_code; run_step).

Ltac one_failure c Hin :=
  cbn in Hin;
  repeat (destruct Hin as [Hin|Hin]; [subst c|]); try contradiction.

(** X3: when the engine cannot be brought (a [toBlobURL] or [ffmpeg.load]
    rejects), the job stops before anything is allocated: the clock is not
    read, nothing is written, executed or deleted, [loaded] and [gifUrl]
    stay as they were, and the job ends with [generating] false and the
    failure status. *)
Theorem X3_engine_failure_allocates_nothing
    (w : World ES) (r : State) (f : File) (c : Ext) :
  file (inputs r) = Some f ->
  In c (failures (events_of respond clock (generateGif r) w)) ->
  is_load_call c = true ->
  let res := run respond clock (generateGif r) (unlogged w) in
  clock_reads (log (snd res)) = []
  /\ written (log (snd res)) = []
  /\ executed (log (snd res)) = []
  /\ deleted (log (snd res)) = []
  /\ loaded (react (snd res)) = loaded (react w)
  /\ gifUrl (react (snd res)) = gifUrl (react w)
  /\ generating (react (snd res)) = false
  /\ status (react (snd res)) = failed_status.
Proof.
  intros Hfile. unfold events_of, generateGif. rewrite Hfile.
  run_generateGif r; intros Hin Hc; one_failure c Hin;
    try discriminate Hc; repeat split; reflexivity.
Qed.

(** X4: a job makes no call after a rejection: at most one call rejects,
    it is the last call of the job, and the console gets exactly the errors
    of the rejected calls, unchanged. *)
Theorem X4_first_rejection_ends_the_calls
    (w : World ES) (r : State) (f : File) :
  file (inputs r) = Some f ->
  let res := run respond clock (generateGif r) (unlogged w) in
  console (snd res) = (console w ++ rejections (log (snd res)))%list
  /\ (List.length (rejections (log (snd res))) <= 1)%nat
  /\ List.length (failures (log (snd res)))
     = List.length (rejections (log (snd res)))
  /\ forall c, In c (failures (log (snd res))) ->
       exists before, calls (log (snd res)) = (before ++ [c])%list.
Proof.
  intros Hfile. unfold generateGif. rewrite Hfile.
  run_generateGif r;
    (split; [now rewrite ?app_nil_r|]; split; [cbn; lia|];
     split; [reflexivity|]);
    intros c Hin; one_failure c Hin;
    match goal with
    | |- exists before, ?l = _ => exists (removelast l); reflexivity
    end.
Qed.

(** X5: without a file [generateGif] only shows "Choose a video file
    first.": it makes no call, does not load the engine and leaves every
    other state variable, the object URLs and the console as they were. *)
Theorem X5_no_file_no_call (w : World ES) (r : State) :
  file (inputs r) = None ->
  let res := run respond clock (generateGif r) (unlogged w) in
  fst res = Returned tt
  /\ calls (log (snd res)) = []
  /\ react (snd res) = with_status "Choose a video file first." (react w)
  /\ visible (snd res)
     = visible (set_react (with_status "Choose a video file first." (react w)) w).
Proof.
  intros Hfile. unfold generateGif. rewrite Hfile. cbn.
  repeat split; reflexivity.
Qed.

(** X6: the number [ffmpeg.exec] resolves to has no effect: a job in an
    environment where every pass that resolves resolves to [code] ends as
    it does in the same environment with the numbers left alone, with the
    same outcome, state, object URLs, console and listeners; so a pass that
    resolves to a non-zero exit code is followed by the next call as one
    that resolves to 0. *)
Theorem X6_exit_code_is_ignored (code : JS.number) (w : World ES) (r : State) :
  same_end (run (with_exit_code code respond) clock (generateGif r) w)
           (run respond clock (generateGif r) w)
  /\ calls (events_of (with_exit_code code respond) clock (generateGif r) w)
     = calls (events_of respond clock (generateGif r) w).
Proof.
  split.
  - unfold generateGif, convert, loadFFmpeg.
    destruct (file (inputs r)) as [f|]; [|split; reflexivity].
    destruct (loaded r); destruct (truthy (gifUrl r)); cbn;
      run_both; unfold same_end, visible; cbn; split; reflexivity.
  - unfold events_of, generateGif, convert, loadFFmpeg.
    destruct (file (inputs r)) as [f|]; [|reflexivity].
    destruct (loaded r); destruct (truthy (gifUrl r)); cbn;
      run_both; reflexivity.
Qed.

(** X7: "Preload ffmpeg" has no [catch]: when a call of [loadFFmpeg]
    rejects the handler throws that error, nothing is written to the
    console, the status stays at "Loading ffmpeg core ..." and [loaded]
    stays false; when all three resolve [loaded] is true.  Either way the
    progress listener it registered stays. *)
Theorem X7_preload_failure_is_not_caught (w : World ES) (r : State) :
  loaded r = false ->
  let res := run respond clock (loadFFmpeg r) (unlogged w) in
  listeners (snd res) = S (listeners w)
  /\ console (snd res) = console w
  /\ match rejections (log (snd res)) with
     | [] => fst res = Returned tt
             /\ loaded (react (snd res)) = true
             /\ status (react (snd res)) = "ffmpeg loaded. Ready to generate."
     | e :: _ => fst res = Thrown e
                 /\ loaded (react (snd res)) = loaded (react w)
                 /\ status (react (snd res))
                    = "Loading ffmpeg core (first run can take ~30MB)..."
     end.
Proof.
  intros Hl. unfold loadFFmpeg. rewrite Hl. cbn.
  repeat run_step; repeat split; reflexivity.
Qed.

Lemma listeners_generateGif (w : World ES) (r : State) :
  listeners (snd (run respond clock (generateGif r) w))
  = match file (inputs r) with
    | None => listeners w
    | Some _ => if loaded r then listeners w else S (listeners w)
    end.
Proof.
  unfold generateGif. destruct (file (inputs r)) as [f|]; [|reflexivity].
  run_generateGif r; reflexivity.
Qed.

Lemma listeners_loadFFmpeg (w : World ES) (r : State) :
  listeners (snd (run respond clock (loadFFmpeg r) w))
  = if loaded r then listeners w else S (listeners w).
Proof.
  unfold loadFFmpeg. destruct (loaded r); cbn; [reflexivity|].
  repeat run_step; reflexivity.
Qed.

Lemma listeners_gesture (g : Gesture) (w : World ES) :
  listeners (gesture respond clock g w)
  = (listeners w + (if enters_load g (react w) then 1 else 0))%nat.
Proof.
  destruct g as [f| |]; unfold gesture, enters_load.
  - cbn. lia.
  - unfold create_enabled.
    destruct (file (inputs (react w))) as [f|] eqn:Hf; [|cbn; lia].
    destruct (generating (react w)); cbn [negb andb]; [lia|].
    rewrite listeners_generateGif, Hf.
    destruct (loaded (react w)); cbn [negb]; lia.
  - unfold preload_enabled.
    destruct (loaded (react w)) eqn:Hl; cbn [negb]; [lia|].
    rewrite listeners_loadFFmpeg, Hl. lia.
Qed.

(** X8: a progress listener is registered by every run of a handler that
    gets into [loadFFmpeg] with [loaded] false, whether the load then
    succeeds or not, and none is ever removed: whatever the user does, the
    number of listeners does not go down, and once [loaded] is true no
    gesture adds one. *)
Theorem X8_listeners_are_never_removed
    (g : Gesture) (gs : list Gesture) (w : World ES) :
  listeners (gesture respond clock g w)
  = (listeners w + (if enters_load g (react w) then 1 else 0))%nat
  /\ (loaded (react w) = true ->
      listeners (gesture respond clock g w) = listeners w)
  /\ (listeners w <= listeners (session respond clock gs w))%nat.
Proof.
  split; [apply listeners_gesture|]. split.
  - intros Hl. rewrite listeners_gesture.
    destruct g; unfold enters_load, preload_enabled; rewrite ?Hl;
      rewrite ?andb_false_r; cbn; lia.
  - revert w. unfold session.
    induction gs as [|g' gs IH]; intros w; cbn [fold_left]; [lia|].
    etransitivity; [|apply IH]. rewrite listeners_gesture. lia.
Qed.

End Job.

(* ===================================================================== *)
(** ** Presets and names *)
(* ===================================================================== *)

Module Presets.
Import JS.


(** X10: the three names of a job differ from one another, whatever the
    clock says and whatever the name of the chosen file is: no pass
    overwrites what it reads. *)
Theorem X10_names_of_a_job_differ (t1 t2 t3 : number) (f : File) :
  inputName_of t1 f <> paletteName_of t2
  /\ inputName_of t1 f <> outputName_of t3
  /\ paletteName_of t2 <> outputName_of t3.
Proof.
  unfold inputName_of, paletteName_of, outputName_of.
  repeat split; intros H; cbn [append] in H; discriminate H.
Qed.

End Presets.

(* ===================================================================== *)
(** ** The theorems of this part at scripted runs *)
(* ===================================================================== *)

Module MoreExamples.
Import Script Runs.

(** X3 at the job whose first [toBlobURL] rejects. *)
Lemma X3_engine_failure_allocates_nothing_witness :
  let res := run (respond (Some 0%nat) (Uint8Array gif_bytes)) clock
               (generateGif chosen) (unlogged first_world) in
  file (inputs chosen) = Some clip
  /\ clock_reads (log (snd res)) = []
  /\ deleted (log (snd res)) = []
  /\ status (react (snd res)) = failed_status.
Proof.
  cbv zeta.
  assert (H1 : file (inputs chosen) = Some clip) by reflexivity.
  assert (H2 : In (toBlobURL (CORE_BASE ++ "/ffmpeg-core.js") "text/javascript")
                 (failures
                    (events_of (respond (Some 0%nat) (Uint8Array gif_bytes))
                       clock (generateGif chosen) first_world)))
    by (vm_compute; left; reflexivity).
  pose proof (X3_engine_failure_allocates_nothing nat
                (respond (Some 0%nat) (Uint8Array gif_bytes)) clock
                first_world chosen clip _ H1 H2 eq_refl) as H0.
  cbv zeta in H0. destruct H0 as (Ha & _ & _ & Hb & _ & _ & _ & Hc).
  split; [exact H1|]. split; [exact Ha|]. split; [exact Hb | exact Hc].
Defined.

(** X4 at the job whose palette pass rejects. *)
Lemma X4_first_rejection_ends_the_calls_witness :
  let res := run (respond (Some 5%nat) (Uint8Array gif_bytes)) clock
               (generateGif chosen) (unlogged first_world) in
  file (inputs chosen) = Some clip
  /\ console (snd res)
     = (console first_world ++ rejections (log (snd res)))%list
  /\ (List.length (rejections (log (snd res))) <= 1)%nat.
Proof.
  cbv zeta.
  assert (H1 : file (inputs chosen) = Some clip) by reflexivity.
  pose proof (X4_first_rejection_ends_the_calls nat
                (respond (Some 5%nat) (Uint8Array gif_bytes)) clock
                first_world chosen clip H1) as H0.
  cbv zeta in H0. destruct H0 as (Ha & Hb & _).
  split; [exact H1|]. split; [exact Ha | exact Hb].
Defined.

(** X5 at the first render, where no file is chosen. *)
Lemma X5_no_file_no_call_witness :
  let res := run all_resolve clock (generateGif initial_state)
               (unlogged (new_world initial_state 0%nat)) in
  file (inputs initial_state) = None
  /\ fst res = Returned tt
  /\ calls (log (snd res)) = [].
Proof.
  cbv zeta.
  assert (H1 : file (inputs initial_state) = None) by reflexivity.
  pose proof (X5_no_file_no_call nat all_resolve clock
                (new_world initial_state 0%nat) initial_state H1) as H0.
  cbv zeta in H0. destruct H0 as (Ha & Hb & _).
  split; [exact H1|]. split; [exact Ha | exact Hb].
Defined.

(** X7 at a preload whose [ffmpeg.load] rejects. *)
Lemma X7_preload_failure_is_not_caught_witness :
  let res := run (respond (Some 2%nat) (Uint8Array gif_bytes)) clock
               (loadFFmpeg initial_state)
               (unlogged (new_world initial_state 0%nat)) in
  loaded initial_state = false
  /\ listeners (snd res) = 1%nat
  /\ console (snd res) = [].
Proof.
  cbv zeta.
  assert (H1 : loaded initial_state = false) by reflexivity.
  pose proof (X7_preload_failure_is_not_caught nat
                (respond (Some 2%nat) (Uint8Array gif_bytes)) clock
                (new_world initial_state 0%nat) initial_state H1) as H0.
  cbv zeta in H0. destruct H0 as (Ha & Hb & _).
  split; [exact H1|]. split; [exact Ha | exact Hb].
Defined.

(** A preload whose [ffmpeg.load] rejects throws and leaves the status at
    the loading message; a job whose passes resolve to 1 ends as one whose
    passes resolve to 0. *)
Example preload_and_exit_code :
  fst (run (respond (Some 2%nat) (Uint8Array gif_bytes)) clock
         (loadFFmpeg initial_state) (new_world initial_state 0%nat))
  = Thrown "rejected"
  /\ status (react (snd (run (with_exit_code (JS.of_Z 1) all_resolve) clock
                           (generateGif chosen) first_world)))
     = "Done. GIF size 0.00 MB".
Proof. vm_compute. split; reflexivity. Qed.

End MoreExamples.
